(** * Dentalec: the subject store gateway

    A shallow embedding of the two Express/Firestore back ends of the
    repository:

    - variant 1, [src/unnamed/part_000]: subjects live in the root
      collection [subjects]; ids are generated by the server; files are
      added and removed with [FieldValue.arrayUnion] / [arrayRemove];
    - variant 2, [src/server.js]: subjects live under one fixed user; the
      client supplies whole subject objects.

    JavaScript values are modelled by the type [JValue] of JSON values,
    strings by their UTF-16 code units, the Firestore collection by a
    finite map from document ids to documents, and every route handler by
    a function in a small state-and-exception monad over that map; the
    [try { ... } catch] of a handler turns a thrown exception into the
    500 answer and keeps the writes done so far.

    What the Firestore client does is taken from its documentation:
    [set] creates or overwrites, [update] fails on a missing document,
    [delete] succeeds whether or not the document exists, [arrayUnion]
    appends the elements that are not yet in the array, [arrayRemove]
    removes every element equal to one of its arguments.  A path that
    names no document and a value the store cannot hold make the call
    throw.  The store is taken to be available and within its limits of
    size; requests are handled one after the other. *)

From Stdlib Require Import ZArith NArith List Ascii String Bool Lia.
From stdpp Require Import base option list gmap.

Local Open Scope N_scope.

(** ** Strings *)

(** A JavaScript string is a sequence of UTF-16 code units. *)
Abbreviation jsstring := (list N).

(** The code units of an ASCII literal of the source. *)
Definition lit (s : string) : jsstring :=
  List.map N_of_ascii (list_ascii_of_string s).

Fixpoint str_eqb (a b : jsstring) : bool :=
  match a, b with
  | [], [] => true
  | x :: a', y :: b' => N.eqb x y && str_eqb a' b'
  | _, _ => false
  end.

(** ECMAScript [WhiteSpace] and [LineTerminator] code points: what
    [String.prototype.trim] strips. *)
Definition is_js_space (c : N) : bool :=
  (9 <=? c) && (c <=? 13)
  || (c =? 32) || (c =? 160) || (c =? 5760)
  || (8192 <=? c) && (c <=? 8202)
  || (c =? 8232) || (c =? 8233) || (c =? 8239) || (c =? 8287)
  || (c =? 12288) || (c =? 65279).

Fixpoint trimStart (s : jsstring) : jsstring :=
  match s with
  | [] => []
  | c :: s' => if is_js_space c then trimStart s' else s
  end.

Definition trimEnd (s : jsstring) : jsstring := rev (trimStart (rev s)).

(** [s.trim()] *)
Definition trim (s : jsstring) : jsstring := trimEnd (trimStart s).

(** [s.substr(start, len)] for non-negative arguments. *)
Definition substr (start len : nat) (s : jsstring) : jsstring :=
  firstn len (skipn start s).

(** *** Decimal text of a natural number: [n.toString()] *)

Fixpoint digits_rev (fuel : nat) (n : N) : list N :=
  match fuel with
  | O => []
  | S fuel' =>
      (48 + n mod 10) :: (if n <? 10 then [] else digits_rev fuel' (n / 10))
  end.

(** A number has no more decimal digits than binary ones. *)
Definition decimal (n : N) : jsstring :=
  rev (digits_rev (S (N.to_nat (N.log2 n))) n).

Definition decimalZ (z : Z) : jsstring :=
  match z with
  | Zneg p => 45 :: decimal (Npos p)
  | _ => decimal (Z.to_N z)
  end.

(** ** JSON values *)

Unset Elimination Schemes.
Inductive JValue : Type :=
| JUndefined
| JNull
| JBool (b : bool)
| JNum (n : Z)            (* integral numbers: no handler computes on one *)
| JStr (s : jsstring)
| JArr (elts : list JValue)
| JObj (fields : list (jsstring * JValue)).
Set Elimination Schemes.

(** A document is a map value: its fields, in the order of the object. *)
Abbreviation Doc := (list (jsstring * JValue)).

Section JValue_induction.
Variable P : JValue -> Prop.
Hypothesis Hundef : P JUndefined.
Hypothesis Hnull : P JNull.
Hypothesis Hbool : forall b, P (JBool b).
Hypothesis Hnum : forall n, P (JNum n).
Hypothesis Hstr : forall s, P (JStr s).
Hypothesis Harr : forall l, Forall P l -> P (JArr l).
Hypothesis Hobj : forall o, Forall (fun kv => P (snd kv)) o -> P (JObj o).

Fixpoint JValue_ind (v : JValue) : P v :=
  match v with
  | JUndefined => Hundef
  | JNull => Hnull
  | JBool b => Hbool b
  | JNum n => Hnum n
  | JStr s => Hstr s
  | JArr l =>
      Harr l ((fix all (l : list JValue) : Forall P l :=
                 match l with
                 | [] => @List.Forall_nil _ P
                 | x :: l' => @List.Forall_cons _ P x l' (JValue_ind x) (all l')
                 end) l)
  | JObj o =>
      Hobj o ((fix all (o : Doc) : Forall (fun kv => P (snd kv)) o :=
                 match o with
                 | [] => @List.Forall_nil _ _
                 | kv :: o' =>
                     @List.Forall_cons _ (fun kv => P (snd kv)) kv o'
                       (JValue_ind (snd kv)) (all o')
                 end) o)
  end.
End JValue_induction.

(** Structural equality of two values, as the store compares array
    elements. *)
Fixpoint jv_eqb (a b : JValue) {struct a} : bool :=
  match a, b with
  | JUndefined, JUndefined => true
  | JNull, JNull => true
  | JBool x, JBool y => Bool.eqb x y
  | JNum x, JNum y => Z.eqb x y
  | JStr x, JStr y => str_eqb x y
  | JArr l, JArr m =>
      (fix go (l m : list JValue) : bool :=
         match l, m with
         | [], [] => true
         | x :: l', y :: m' => jv_eqb x y && go l' m'
         | _, _ => false
         end) l m
  | JObj o, JObj p =>
      (fix go (o p : Doc) : bool :=
         match o, p with
         | [], [] => true
         | (k, x) :: o', (k', y) :: p' =>
             str_eqb k k' && jv_eqb x y && go o' p'
         | _, _ => false
         end) o p
  | _, _ => false
  end.

(** ** The fragment of JavaScript the handlers use *)

(** A computation either returns or throws. *)
Inductive result (A : Type) : Type :=
| Ok (a : A)
| Throw.
Arguments Ok {A} a.
Arguments Throw {A}.

(** [!v] is [negb (truthy v)]. *)
Definition truthy (v : JValue) : bool :=
  match v with
  | JUndefined | JNull => false
  | JBool b => b
  | JNum n => negb (Z.eqb n 0)
  | JStr s => negb (str_eqb s [])
  | JArr _ | JObj _ => true
  end.

Definition is_nullish (v : JValue) : bool :=
  match v with
  | JUndefined | JNull => true
  | _ => false
  end.

(** [typeof v === 'string'] *)
Definition typeof_string (v : JValue) : bool :=
  match v with
  | JStr _ => true
  | _ => false
  end.

(** First field named [k] of an object. *)
Fixpoint field (k : jsstring) (o : Doc) : option JValue :=
  match o with
  | [] => None
  | (k', v) :: o' => if str_eqb k' k then Some v else field k o'
  end.

(** [v.k] (also [const { k } = v]) for one of the keys the handlers read
    ([name], [content], [id], [files]), none of which is a built-in
    property of a JSON value: a [TypeError] on [undefined] and [null],
    the field of an object, [undefined] elsewhere. *)
Definition get_prop (v : JValue) (k : jsstring) : result JValue :=
  match v with
  | JUndefined | JNull => Throw
  | JObj o => Ok (default JUndefined (field k o))
  | _ => Ok JUndefined
  end.

(** [v === s] for a string [s]. *)
Definition strict_eq_str (v : JValue) (s : jsstring) : bool :=
  match v with
  | JStr t => str_eqb t s
  | _ => false
  end.

(** [arr.find(f => f.id === fileId)]: the first element whose [id] is the
    string [fileId], [undefined] when there is none; reading [id] of a
    [null] or [undefined] element throws. *)
Fixpoint find_by_id (fileId : jsstring) (l : list JValue) : result JValue :=
  match l with
  | [] => Ok JUndefined
  | f :: l' =>
      match get_prop f (lit "id") with
      | Throw => Throw
      | Ok i => if strict_eq_str i fileId then Ok f else find_by_id fileId l'
      end
  end.

(** [String(v)], with the text of a number as JavaScript gives it for
    the integers it prints in plain decimal (below 10^21 in absolute
    value).  An array joins the texts of its elements with commas
    ([null] and [undefined] elements give the empty text); an object gives
    ["[object Object]"], unless it has a [toString] field of its own: that
    field is JSON, hence not callable, and the conversion throws. *)
Fixpoint js_String (v : JValue) : result jsstring :=
  match v with
  | JUndefined => Ok (lit "undefined")
  | JNull => Ok (lit "null")
  | JBool true => Ok (lit "true")
  | JBool false => Ok (lit "false")
  | JNum n => Ok (decimalZ n)
  | JStr s => Ok s
  | JArr l =>
      (fix join (first : bool) (l : list JValue) : result jsstring :=
         match l with
         | [] => Ok []
         | x :: l' =>
             match (if is_nullish x then Ok [] else js_String x), join false l' with
             | Ok s, Ok r => Ok ((if first then [] else lit ",") ++ s ++ r)
             | _, _ => Throw
             end
         end) true l
  | JObj o =>
      match field (lit "toString") o with
      | Some _ => Throw
      | None => Ok (lit "[object Object]")
      end
  end.

(** ** The document store *)

(** One Firestore collection: the documents by id. *)
Abbreviation Store := (gmap jsstring Doc).

(** A handler body runs against the store and returns or throws; the
    store it leaves holds the writes made until then. *)
Definition M (A : Type) : Type := Store -> Store * result A.

Definition ret {A : Type} (a : A) : M A := fun st => (st, Ok a).

Definition lift {A : Type} (r : result A) : M A := fun st => (st, r).

Definition bind {A B : Type} (m : M A) (k : A -> M B) : M B :=
  fun st =>
    match m st with
    | (st', Ok a) => k a st'
    | (st', Throw) => (st', Throw)
    end.

Notation "'do' x <- m ; k" := (bind m (fun x => k))
  (at level 10, x name, m at level 100, k at level 200,
   format "'[v' 'do'  x  <-  m ; '/' k ']'").

Module Firestore.

(** The value given for a field in [update]: a plain value or one of the
    array transforms of [FieldValue]. *)
Inductive FieldValue : Type :=
| plain (v : JValue)
| arrayUnion (elt : JValue)
| arrayRemove (elt : JValue).

(** *** Document paths *)

(** The pieces of a path between its slashes (code unit 47). *)
Fixpoint split_slash (s : jsstring) : list jsstring :=
  match s with
  | [] => [[]]
  | c :: s' =>
      if c =? 47 then [] :: split_slash s'
      else match split_slash s' with
           | piece :: pieces => (c :: piece) :: pieces
           | [] => [[c]]
           end
  end.

(** [path.split('/').filter(segment => segment.length > 0)] *)
Definition segments (path : jsstring) : list jsstring :=
  List.filter (fun segment => negb (str_eqb segment [])) (split_slash path).

(** [path.indexOf('//') >= 0] *)
Fixpoint has_double_slash (s : jsstring) : bool :=
  match s with
  | c :: ((d :: _) as s') => (c =? 47) && (d =? 47) || has_double_slash s'
  | _ => false
  end.

(** Names of the form [__.*__] are reserved. *)
Definition reserved_name (s : jsstring) : bool :=
  match s, rev s with
  | 95 :: 95 :: _, 95 :: 95 :: _ => (4 <=? length s)%nat
  | _, _ => false
  end.

(** The length of the UTF-8 encoding of well-formed text. *)
Fixpoint utf8_length (s : jsstring) : N :=
  match s with
  | [] => 0
  | c :: s' =>
      (if c <? 128 then 1
       else if c <? 2048 then 2
       else if (55296 <=? c) && (c <=? 57343) then 2
       else 3) + utf8_length s'
  end.

(** What the store asks of the id of a document or of a collection: not
    [.] or [..], not reserved, at most 1500 bytes. *)
Definition segment_ok (s : jsstring) : bool :=
  negb (str_eqb s [46]) && negb (str_eqb s [46; 46])
  && negb (reserved_name s) && (utf8_length s <=? 1500).

(** A document reference made by [collection.doc(path)]: a document of
    the collection, or a document of a collection nested below one of its
    documents. *)
Inductive DocRef : Type :=
| here (id : jsstring)
| nested (path : list jsstring).

(** [collection.doc(path)].  The client throws on the empty path, on a
    path with [//] and on a path that does not end at a document (an even
    number of segments).  An id the store refuses makes the first
    operation on the reference fail; the handlers have nothing between the
    two, so the model lets [doc] throw for it as well. *)
Definition doc (path : jsstring) : result DocRef :=
  if str_eqb path [] || has_double_slash path then Throw
  else
    let segs := segments path in
    if Nat.odd (length segs) && forallb segment_ok segs
    then match segs with
         | [id] => Ok (here id)
         | _ => Ok (nested segs)
         end
    else Throw.

(** *** Values *)

(** What the store asks of a field name: not empty, not reserved, at most
    1500 bytes. *)
Definition field_name_ok (k : jsstring) : bool :=
  negb (str_eqb k []) && negb (reserved_name k) && (utf8_length k <=? 1500).

(** Whether a value can be written: no [undefined], no array directly
    inside an array, proper field names, and at most [fuel] levels of
    arrays and objects. *)
Fixpoint storable_in (fuel : nat) (in_array : bool) (v : JValue) : bool :=
  match fuel with
  | O => false
  | S fuel' =>
      match v with
      | JUndefined => false
      | JNull | JBool _ | JNum _ | JStr _ => true
      | JArr l => negb in_array && forallb (storable_in fuel' true) l
      | JObj o =>
          forallb (fun kv => field_name_ok (fst kv)
                             && storable_in fuel' false (snd kv)) o
      end
  end.

(** The store allows fields 20 levels deep.  The bound of the model is
    lower, so that a value within it is within the limit wherever a
    handler puts it: as a document, as a field or as an entry of
    [files]. *)
Definition max_depth : nat := 16.

(** A value that can be written as a document or as a field. *)
Definition storable (v : JValue) : bool := storable_in max_depth false v.

(** A value that can be written as an entry of an array. *)
Definition storable_entry (v : JValue) : bool := storable_in max_depth true v.

(** What [update] checks of the value of a field.  The handlers give
    [arrayRemove] an entry read from the store, which the store has
    accepted before; the model does not check it again. *)
Definition writable (fv : FieldValue) : bool :=
  match fv with
  | plain v => storable v
  | arrayUnion e => storable_entry e
  | arrayRemove _ => true
  end.

(** *** Operations *)

(** [collection.get()], then [snapshot.docs.map(doc => doc.data())]: the
    documents of the collection itself. *)
Definition collection_get : M (list Doc) :=
  fun st => (st, Ok (List.map snd (map_to_list st))).

(** [ref.get()]: [None] stands for [exists === false].  No handler ever
    creates a nested document that a later answer depends on; they are
    not kept, and read as missing. *)
Definition doc_get (ref : DocRef) : M (option Doc) :=
  fun st =>
    match ref with
    | here id => (st, Ok (st !! id))
    | nested _ => (st, Ok None)
    end.

(** [ref.set(data)]: creates or overwrites; the data has to be an object
    that can be written. *)
Definition doc_set (ref : DocRef) (data : JValue) : M unit :=
  fun st =>
    match data with
    | JObj o =>
        if storable data
        then match ref with
             | here id => (<[id := o]> st, Ok tt)
             | nested _ => (st, Ok tt)
             end
        else (st, Throw)
    | _ => (st, Throw)
    end.

(** The new value of a field, from its old one. *)
Definition transform (old : option JValue) (fv : FieldValue) : JValue :=
  match fv with
  | plain v => v
  | arrayUnion e =>
      match old with
      | Some (JArr l) =>
          JArr (if existsb (fun x => jv_eqb x e) l then l else l ++ [e])
      | _ => JArr [e]
      end
  | arrayRemove e =>
      match old with
      | Some (JArr l) => JArr (List.filter (fun x => negb (jv_eqb x e)) l)
      | _ => JArr []
      end
  end.

(** Writes field [k], in place when the document has it. *)
Fixpoint set_field (k : jsstring) (v : JValue) (o : Doc) : Doc :=
  match o with
  | [] => [(k, v)]
  | (k', v') :: o' =>
      if str_eqb k' k then (k, v) :: o' else (k', v') :: set_field k v o'
  end.

(** [ref.update({ k: fv })]: the client checks the value, and the store
    fails when there is no such document. *)
Definition doc_update (ref : DocRef) (k : jsstring) (fv : FieldValue) : M unit :=
  fun st =>
    if writable fv
    then match ref with
         | here id =>
             match st !! id with
             | None => (st, Throw)
             | Some o =>
                 (<[id := set_field k (transform (field k o) fv) o]> st, Ok tt)
             end
         | nested _ => (st, Throw)
         end
    else (st, Throw).

(** [ref.delete()] *)
Definition doc_delete (ref : DocRef) : M unit :=
  fun st =>
    match ref with
    | here id => (delete id st, Ok tt)
    | nested _ => (st, Ok tt)
    end.

End Firestore.

(** ** Responses *)

Inductive Payload : Type :=
| json (v : JValue)       (* [res.json(v)] *)
| send (s : jsstring)     (* [res.send(text)] *)
| send_empty.             (* [res.send()] *)

Record Response : Type := respond { status : Z; payload : Payload }.

(** [try { body } catch (error) { on_error }] *)
Definition try_catch (body : M Response) (on_error : Response)
  : Store -> Store * Response :=
  fun st =>
    match body st with
    | (st', Ok r) => (st', r)
    | (st', Throw) => (st', on_error)
    end.

(** [{ message: text }] *)
Definition message (text : string) : JValue :=
  JObj [(lit "message", JStr (lit text))].

(** ** Variant 1: [src/unnamed/part_000] *)

Module V1.
Import Firestore.

(** What a request draws from outside the program: the id Firestore
    gives a new document reference, the clock, and the base-36 text of
    the [Math.random()] draw. *)
Record Env : Type := {
  auto_id : jsstring;       (* [subjectsCollection.doc().id] *)
  now_millis : N;           (* [Timestamp.now().toMillis()] *)
  random_text : jsstring    (* [Math.random().toString(36)] *)
}.

Definition internal_error : Response :=
  respond 500 (json (message "Internal Server Error")).

(** [name.trim()] *)
Definition js_trim (v : JValue) : result jsstring :=
  match v with
  | JStr s => Ok (trim s)
  | _ => Throw
  end.

(** [arr.find(f => f.id === fileId)] on the value of [subjectData.files]. *)
Definition js_find_by_id (files : JValue) (fileId : jsstring) : result JValue :=
  match files with
  | JArr l => find_by_id fileId l
  | _ => Throw
  end.

(** GET /api/subjects *)
Definition get_subjects : Store -> Store * Response :=
  try_catch
    (do docs <- collection_get;
     ret (respond 200 (json (JArr (List.map JObj docs)))))
    internal_error.

(** [!name || typeof name !== 'string' || name.trim() === ''] *)
Definition name_invalid (name : JValue) : result bool :=
  if negb (truthy name) then Ok true
  else if negb (typeof_string name) then Ok true
  else match js_trim name with
       | Ok t => Ok (str_eqb t [])
       | Throw => Throw
       end.

(** POST /api/subjects *)
Definition post_subjects (env : Env) (body : JValue) : Store -> Store * Response :=
  try_catch
    (do name <- lift (get_prop body (lit "name"));
     do bad <- lift (name_invalid name);
     if bad then ret (respond 400 (json (message "Subject name is required.")))
     else
       do trimmed <- lift (js_trim name);
       let newSubject :=
         JObj [(lit "id", JStr (auto_id env));
               (lit "name", JStr trimmed);
               (lit "files", JArr [])] in
       do _ <- doc_set (here (auto_id env)) newSubject;
       ret (respond 201 (json newSubject)))
    internal_error.

(** PUT /api/subjects/:subjectId *)
Definition put_subject (subjectId : jsstring) (body : JValue)
  : Store -> Store * Response :=
  try_catch
    (do name <- lift (get_prop body (lit "name"));
     if negb (truthy name)
     then ret (respond 400 (json (message "New name is required.")))
     else
       do subjectRef <- lift (doc subjectId);
       do _ <- doc_update subjectRef (lit "name") (plain name);
       ret (respond 200 (json (message "Subject updated successfully"))))
    internal_error.

(** DELETE /api/subjects/:subjectId *)
Definition delete_subject (subjectId : jsstring) : Store -> Store * Response :=
  try_catch
    (do subjectRef <- lift (doc subjectId);
     do _ <- doc_delete subjectRef;
     ret (respond 200 (json (message "Subject deleted successfully"))))
    internal_error.

(** The id of a new file. *)
Definition new_file_id (env : Env) : jsstring :=
  decimal (now_millis env) ++ substr 2 9 (random_text env).

(** POST /api/subjects/:subjectId/files *)
Definition post_file (env : Env) (subjectId : jsstring) (body : JValue)
  : Store -> Store * Response :=
  try_catch
    (do name <- lift (get_prop body (lit "name"));
     do content <- lift (get_prop body (lit "content"));
     if negb (truthy name) || negb (truthy content)
     then ret (respond 400 (json (message "File name and content are required.")))
     else
       do subjectRef <- lift (doc subjectId);
       do subjectDoc <- doc_get subjectRef;
       match subjectDoc with
       | None => ret (respond 404 (json (message "Subject not found.")))
       | Some _ =>
           let newFile :=
             JObj [(lit "id", JStr (new_file_id env));
                   (lit "name", name);
                   (lit "content", content)] in
           do _ <- doc_update subjectRef (lit "files") (arrayUnion newFile);
           ret (respond 201 (json newFile))
       end)
    internal_error.

(** DELETE /api/subjects/:subjectId/files/:fileId *)
Definition delete_file (subjectId fileId : jsstring) : Store -> Store * Response :=
  try_catch
    (do subjectRef <- lift (doc subjectId);
     do subjectDoc <- doc_get subjectRef;
     match subjectDoc with
     | None => ret (respond 404 (json (message "Subject not found.")))
     | Some subjectData =>
         do files <- lift (get_prop (JObj subjectData) (lit "files"));
         do fileToRemove <- lift (js_find_by_id files fileId);
         if negb (truthy fileToRemove)
         then ret (respond 404 (json (message "File not found.")))
         else
           do _ <- doc_update subjectRef (lit "files") (arrayRemove fileToRemove);
           ret (respond 200 (json (message "File deleted successfully")))
     end)
    internal_error.

Inductive Request : Type :=
| GetSubjects
| PostSubjects (body : JValue)
| PutSubject (subjectId : jsstring) (body : JValue)
| DeleteSubject (subjectId : jsstring)
| PostFile (subjectId : jsstring) (body : JValue)
| DeleteFile (subjectId fileId : jsstring).

(** The routes of the application. *)
Definition handle (env : Env) (req : Request) : Store -> Store * Response :=
  match req with
  | GetSubjects => get_subjects
  | PostSubjects body => post_subjects env body
  | PutSubject subjectId body => put_subject subjectId body
  | DeleteSubject subjectId => delete_subject subjectId
  | PostFile subjectId body => post_file env subjectId body
  | DeleteFile subjectId fileId => delete_file subjectId fileId
  end.

End V1.

(** ** Variant 2: [src/server.js] *)

Module V2.
Import Firestore.

(** The sample data of the first listing. *)
Definition initialSubjects : list JValue :=
  [ JObj [(lit "id", JNum 1);
          (lit "name", JStr (lit "Anatomy"));
          (lit "files",
            JArr [ JObj [(lit "name", JStr (lit "Cranial Nerves.txt"));
                         (lit "content", JStr (lit "The twelve cranial nerves..."))];
                   JObj [(lit "name", JStr (lit "Muscles of Mastication.txt"));
                         (lit "content", JStr (lit "The four primary muscles..."))] ])] ].

(** [for (const subject of subjects) await doc(String(subject.id)).set(subject)] *)
Fixpoint save_all (subjects : list JValue) : M unit :=
  match subjects with
  | [] => ret tt
  | subject :: rest =>
      do id <- lift (get_prop subject (lit "id"));
      do key <- lift (js_String id);
      do ref <- lift (doc key);
      do _ <- doc_set ref subject;
      save_all rest
  end.

(** GET /api/subjects *)
Definition get_subjects : Store -> Store * Response :=
  try_catch
    (do docs <- collection_get;
     match docs with
     | [] =>
         do _ <- save_all initialSubjects;
         ret (respond 200 (json (JArr initialSubjects)))
     | _ => ret (respond 200 (json (JArr (List.map JObj docs))))
     end)
    (respond 500 (send (lit "Error fetching data from server."))).

(** [!newSubject || !newSubject.name || !newSubject.id] *)
Definition subject_invalid (newSubject : JValue) : result bool :=
  if negb (truthy newSubject) then Ok true
  else match get_prop newSubject (lit "name") with
       | Throw => Throw
       | Ok name =>
           if negb (truthy name) then Ok true
           else match get_prop newSubject (lit "id") with
                | Throw => Throw
                | Ok id => Ok (negb (truthy id))
                end
       end.

(** POST /api/subjects *)
Definition post_subjects (body : JValue) : Store -> Store * Response :=
  try_catch
    (do bad <- lift (subject_invalid body);
     if bad then ret (respond 400 (send (lit "Invalid subject data.")))
     else
       do id <- lift (get_prop body (lit "id"));
       do key <- lift (js_String id);
       do ref <- lift (doc key);
       do _ <- doc_set ref body;
       ret (respond 201 (json body)))
    (respond 500 (send (lit "Error saving data."))).

(** PUT /api/subjects/:subjectId *)
Definition put_subject (subjectId : jsstring) (body : JValue)
  : Store -> Store * Response :=
  try_catch
    (if negb (truthy body)
     then ret (respond 400 (send (lit "Invalid update data.")))
     else
       do subjectRef <- lift (doc subjectId);
       do _ <- doc_set subjectRef body;
       ret (respond 200 (json body)))
    (respond 500 (send (lit "Error updating data."))).

(** DELETE /api/subjects/:subjectId *)
Definition delete_subject (subjectId : jsstring) : Store -> Store * Response :=
  try_catch
    (do subjectRef <- lift (doc subjectId);
     do _ <- doc_delete subjectRef;
     ret (respond 204 send_empty))
    (respond 500 (send (lit "Error deleting data."))).

Inductive Request : Type :=
| GetSubjects
| PostSubjects (body : JValue)
| PutSubject (subjectId : jsstring) (body : JValue)
| DeleteSubject (subjectId : jsstring).

(** The routes of the application. *)
Definition handle (req : Request) : Store -> Store * Response :=
  match req with
  | GetSubjects => get_subjects
  | PostSubjects body => post_subjects body
  | PutSubject subjectId body => put_subject subjectId body
  | DeleteSubject subjectId => delete_subject subjectId
  end.

End V2.

(** * Vocabulary of the statements *)

(** An id that names a document of the collection: not empty, without a
    slash, and one the store takes as the id of a document. *)
Definition document_id (s : jsstring) : bool :=
  negb (str_eqb s [])
  && forallb (fun c => negb (c =? 47)) s
  && Firestore.segment_ok s.

(** Text without surrogate code units, which is the same text in every
    encoding. *)
Definition well_formed_text (s : jsstring) : bool :=
  forallb (fun c => negb ((55296 <=? c) && (c <=? 57343))) s.

(** The id of an entry of a [files] sequence: the string in its [id]
    field, if it is an object with one. *)
Definition file_id (f : JValue) : option jsstring :=
  match f with
  | JObj o =>
      match field (lit "id") o with
      | Some (JStr i) => Some i
      | _ => None
      end
  | _ => None
  end.

(** Whether the id of an entry is [fileId]. *)
Definition has_id (fileId : jsstring) (f : JValue) : bool :=
  match file_id f with
  | Some i => str_eqb i fileId
  | None => false
  end.

(** The ids of the files of a sequence, in order. *)
Fixpoint file_ids (fs : list JValue) : list jsstring :=
  match fs with
  | [] => []
  | f :: fs' =>
      match file_id f with
      | Some i => i :: file_ids fs'
      | None => file_ids fs'
      end
  end.

(** An entry of a [files] sequence as variant 1 makes them: an object
    with a string id. *)
Definition is_file (f : JValue) : Prop := exists i, file_id f = Some i.

(** A subject document: it has a [files] array of such entries. *)
Definition subject_doc (doc : Doc) : Prop :=
  exists fs : list JValue,
    field (lit "files") doc = Some (JArr fs) /\ Forall is_file fs.

(** A store of subject documents. *)
Definition subjects_store (st : Store) : Prop :=
  map_Forall (fun _ doc => subject_doc doc) st.

(** The number a little-endian digit text stands for. *)
Fixpoint undigits (ds : list N) : N :=
  match ds with
  | [] => 0
  | d :: ds' => (d - 48) + 10 * undigits ds'
  end.

(** A request to one of the two back ends. *)
Inductive Call : Type :=
| to_v1 (env : V1.Env) (req : V1.Request)
| to_v2 (req : V2.Request).

Definition gateway (c : Call) : Store -> Store * Response :=
  match c with
  | to_v1 env req => V1.handle env req
  | to_v2 req => V2.handle req
  end.




(** What a listing of the store shows: its documents. *)
Definition listing (st : Store) : list JValue :=
  List.map JObj (List.map snd (map_to_list st)).

(** The entries of the [files] array of a document. *)
Definition files_of (doc : Doc) : list JValue :=
  match field (lit "files") doc with
  | Some (JArr fs) => fs
  | _ => []
  end.

(** Every document carries, in its [id] field, the id it is stored under. *)
Definition ids_match_keys (st : Store) : Prop :=
  map_Forall (fun k doc => field (lit "id") doc = Some (JStr k)) st.

(** No files sequence holds the same value twice. *)
Definition no_repeated_files (st : Store) : Prop :=
  map_Forall (fun _ doc => NoDup (files_of doc)) st.

(** The statuses of the answers that report a failure. *)
Definition is_failure (r : Response) : bool := (400 <=? status r)%Z.

(** The statuses a route of variant 1 can answer with. *)
Definition v1_statuses (req : V1.Request) : list Z :=
  match req with
  | V1.GetSubjects => [200]
  | V1.PostSubjects _ => [201; 400; 500]
  | V1.PutSubject _ _ => [200; 400; 500]
  | V1.DeleteSubject _ => [200; 500]
  | V1.PostFile _ _ => [201; 400; 404; 500]
  | V1.DeleteFile _ _ => [200; 404; 500]
  end%Z.

(** The statuses a route of variant 2 can answer with. *)
Definition v2_statuses (req : V2.Request) : list Z :=
  match req with
  | V2.GetSubjects => [200]
  | V2.PostSubjects _ => [201; 400; 500]
  | V2.PutSubject _ _ => [200; 400; 500]
  | V2.DeleteSubject _ => [204; 500]
  end%Z.

(** The store after a sequence of requests to variant 1, each with its
    draws. *)
Fixpoint run_v1 (calls : list (V1.Env * V1.Request)) (st : Store) : Store :=
  match calls with
  | [] => st
  | (env, req) :: rest => run_v1 rest (fst (V1.handle env req st))
  end.

(** ** Sample data *)

(** The sample subject of variant 2, as a document. *)
Definition sample_doc : Doc :=
  [(lit "id", JNum 1);
   (lit "name", JStr (lit "Anatomy"));
   (lit "files",
     JArr [ JObj [(lit "name", JStr (lit "Cranial Nerves.txt"));
                  (lit "content", JStr (lit "The twelve cranial nerves..."))];
            JObj [(lit "name", JStr (lit "Muscles of Mastication.txt"));
                  (lit "content", JStr (lit "The four primary muscles..."))] ])].

Definition env_sample : V1.Env :=
  {| V1.auto_id := lit "Zq3kT0aB9xLmN2pR7sUv";
     V1.now_millis := 1700000000000;
     V1.random_text := lit "0.k3j2h1g9f8d" |}.

Definition store_sample : Store :=
  {[ lit "s1" := [(lit "id", JStr (lit "s1"));
                  (lit "name", JStr (lit "Anatomy"));
                  (lit "files", JArr [])] ]}.

Definition file_sample (id name content : string) : JValue :=
  JObj [(lit "id", JStr (lit id));
        (lit "name", JStr (lit name));
        (lit "content", JStr (lit content))].

Definition subject_sample (id name : string) (files : list JValue) : Doc :=
  [(lit "id", JStr (lit id));
   (lit "name", JStr (lit name));
   (lit "files", JArr files)].

Definition store_one_file : Store :=
  {[ lit "s1" := subject_sample "s1" "Anatomy" [file_sample "f1" "a.txt" "A"] ]}.

Definition files_three : list JValue :=
  [file_sample "f1" "a.txt" "A";
   file_sample "f2" "b.txt" "B";
   file_sample "f3" "c.txt" "C"].

Definition store_three_files : Store :=
  {[ lit "s1" := subject_sample "s1" "Anatomy" files_three ]}.

(** Two entries with one id and different contents. *)
Definition files_same_id : list JValue :=
  [file_sample "f1" "a.txt" "A"; file_sample "f1" "a.txt" "changed"].

Definition body_file_sample : JValue :=
  JObj [(lit "name", JStr (lit "b.txt")); (lit "content", JStr (lit "B"))].

Definition file_new_sample : JValue :=
  JObj [(lit "id", JStr (V1.new_file_id env_sample));
        (lit "name", JStr (lit "b.txt"));
        (lit "content", JStr (lit "B"))].

(** The draws of [env_sample] but for the random text. *)
Definition env_other_draw : V1.Env :=
  {| V1.auto_id := lit "Zq3kT0aB9xLmN2pR7sUv";
     V1.now_millis := 1700000000000;
     V1.random_text := lit "0.z3j2h1g9f8d" |}.

Definition env_later : V1.Env :=
  {| V1.auto_id := lit "Zq3kT0aB9xLmN2pR7sUv";
     V1.now_millis := 1700000000001;
     V1.random_text := lit "0.k3j2h1g9f8d" |}.

Definition store_two_subjects : Store :=
  <[ lit "s2" := subject_sample "s2" "Histology" [] ]> store_three_files.

(** A session: a subject is created, gets a file, is renamed, and the
    file is deleted. *)
Definition calls_sample : list (V1.Env * V1.Request) :=
  [(env_sample, V1.PostSubjects (JObj [(lit "name", JStr (lit " Anatomy "))]));
   (env_sample, V1.PostFile (V1.auto_id env_sample) body_file_sample);
   (env_later, V1.PostFile (V1.auto_id env_sample) body_file_sample);
   (env_sample, V1.PutSubject (V1.auto_id env_sample)
                  (JObj [(lit "name", JStr (lit "Histology"))]));
   (env_sample, V1.DeleteFile (V1.auto_id env_sample) (V1.new_file_id env_sample))].

(** * Properties *)

(** ** Equality tests *)

Lemma str_eqb_eq (a b : jsstring) : str_eqb a b = true <-> a = b.
Proof.
  revert b; induction a as [|x a IH]; intros [|y b]; simpl; try easy.
  rewrite andb_true_iff, N.eqb_eq, IH. split.
  - intros [-> ->]; reflexivity.
  - intros [= -> ->]; auto.
Qed.

Lemma str_eqb_refl (a : jsstring) : str_eqb a a = true.
Proof. apply str_eqb_eq; reflexivity. Qed.

Lemma str_eqb_neq (a b : jsstring) : str_eqb a b = false <-> a <> b.
Proof.
  rewrite <- str_eqb_eq. destruct (str_eqb a b); split; congruence.
Qed.

Lemma jv_eqb_eq (a b : JValue) : jv_eqb a b = true <-> a = b.
Proof.
  revert b; induction a as [| |x|x|x|l IH|o IH] using JValue_ind; intros [| |y|y|y|m|p];
    simpl; try easy.
  - rewrite Bool.eqb_true_iff. split; [intros -> | intros [= ->]]; auto.
  - rewrite Z.eqb_eq. split; [intros -> | intros [= ->]]; auto.
  - rewrite str_eqb_eq. split; [intros -> | intros [= ->]]; auto.
  - revert m; induction IH as [|x l Hx _ IHl]; intros [|y m]; try easy.
    rewrite andb_true_iff, Hx, IHl. split.
    + intros [-> [= ->]]; reflexivity.
    + intros [= -> ->]; auto.
  - revert p; induction IH as [|[k x] o Hx _ IHo]; intros [|[k' y] p]; try easy.
    simpl in Hx.
    rewrite !andb_true_iff, str_eqb_eq, Hx, IHo. split.
    + intros [[-> ->] [= ->]]; reflexivity.
    + intros [= -> -> ->]; auto.
Qed.

Lemma jv_eqb_refl (a : JValue) : jv_eqb a a = true.
Proof. apply jv_eqb_eq; reflexivity. Qed.

Lemma jv_eqb_neq (a b : JValue) : jv_eqb a b = false <-> a <> b.
Proof.
  rewrite <- jv_eqb_eq. destruct (jv_eqb a b); split; congruence.
Qed.

(** ** Running a handler body *)

Lemma try_catch_ok (body : M Response) (err r : Response) (st st' : Store) :
  body st = (st', Ok r) -> try_catch body err st = (st', r).
Proof. unfold try_catch; intros ->; reflexivity. Qed.

Lemma bind_lift_ok {A B : Type} (r : result A) (a : A) (k : A -> M B) (st : Store) :
  r = Ok a -> bind (lift r) k st = k a st.
Proof. intros ->; reflexivity. Qed.


Lemma try_catch_throw (body : M Response) (err : Response) (st st' : Store) :
  body st = (st', Throw) -> try_catch body err st = (st', err).
Proof. unfold try_catch; intros ->; reflexivity. Qed.

Ltac unfold_handlers :=
  unfold V1.get_subjects, V1.post_subjects, V1.put_subject, V1.delete_subject,
    V1.post_file, V1.delete_file,
    V2.get_subjects, V2.post_subjects, V2.put_subject, V2.delete_subject,
    try_catch, bind, lift, ret,
    Firestore.collection_get, Firestore.doc_get, Firestore.doc_set,
    Firestore.doc_update, Firestore.doc_delete.

Ltac split_cases :=
  repeat (cbv beta iota;
          match goal with
          | |- context [match ?x with _ => _ end] =>
              lazymatch x with
              | context [match _ with _ => _ end] => fail
              | _ => destruct x eqn:?
              end
          end);
  cbv beta iota.

#[global] Instance JValue_eq_dec : EqDecision JValue.
Proof.
  intros a b. destruct (jv_eqb a b) eqn:E.
  - left. apply jv_eqb_eq. exact E.
  - right. apply jv_eqb_neq. exact E.
Defined.

(** ** Document references and values the store accepts *)

Lemma split_slash_no_slash (s : jsstring) :
  forallb (fun c => negb (c =? 47)) s = true -> Firestore.split_slash s = [s].
Proof.
  induction s as [|c s IH]; [reflexivity|].
  cbn [forallb Firestore.split_slash]. intros H.
  apply andb_true_iff in H as [Hc Hs].
  apply negb_true_iff in Hc. rewrite Hc, (IH Hs). reflexivity.
Qed.

Lemma has_double_slash_no_slash (s : jsstring) :
  forallb (fun c => negb (c =? 47)) s = true -> Firestore.has_double_slash s = false.
Proof.
  induction s as [|c s IH]; [reflexivity|].
  cbn [forallb]. intros H. apply andb_true_iff in H as [Hc Hs].
  apply negb_true_iff in Hc. cbn [Firestore.has_double_slash].
  destruct s as [|d s]; [reflexivity|].
  rewrite Hc. cbn [andb orb]. exact (IH Hs).
Qed.

(** A document id is the reference of the document it names. *)
Lemma doc_document_id (s : jsstring) :
  document_id s = true -> Firestore.doc s = Ok (Firestore.here s).
Proof.
  unfold document_id. intros H.
  apply andb_true_iff in H as [H Hok]. apply andb_true_iff in H as [Hne Hslash].
  apply negb_true_iff in Hne.
  unfold Firestore.doc, Firestore.segments.
  rewrite Hne, (has_double_slash_no_slash s Hslash), (split_slash_no_slash s Hslash).
  cbn [orb List.filter]. rewrite Hne. cbn [negb length Nat.odd forallb].
  rewrite Hok. reflexivity.
Qed.

(** Strings can be written, and so can a file whose name and content are
    strings. *)
Lemma storable_entry_string_file (i n c : jsstring) :
  Firestore.storable_entry
    (JObj [(lit "id", JStr i); (lit "name", JStr n); (lit "content", JStr c)])
  = true.
Proof. reflexivity. Qed.

(** ** Writing a field *)

Lemma field_set_field_eq (k : jsstring) (v : JValue) (o : Doc) :
  field k (Firestore.set_field k v o) = Some v.
Proof.
  induction o as [|[k' v'] o IH]; cbn [Firestore.set_field field].
  - rewrite str_eqb_refl. reflexivity.
  - destruct (str_eqb k' k) eqn:E; cbn [field].
    + rewrite str_eqb_refl. reflexivity.
    + rewrite E. exact IH.
Qed.

Lemma field_set_field_ne (k k' : jsstring) (v : JValue) (o : Doc) :
  k' <> k -> field k' (Firestore.set_field k v o) = field k' o.
Proof.
  intros Hne. apply str_eqb_neq in Hne.
  assert (Hne' : str_eqb k k' = false).
  { apply str_eqb_neq. apply str_eqb_neq in Hne. congruence. }
  induction o as [|[k0 v0] o IH]; cbn [Firestore.set_field field].
  - rewrite Hne'. reflexivity.
  - destruct (str_eqb k0 k) eqn:E; cbn [field].
    + apply str_eqb_eq in E. subst k0. rewrite Hne'. reflexivity.
    + destruct (str_eqb k0 k'); [reflexivity | exact IH].
Qed.

Lemma set_field_same (k : jsstring) (v : JValue) (o : Doc) :
  field k o = Some v -> Firestore.set_field k v o = o.
Proof.
  induction o as [|[k' v'] o IH]; cbn [field Firestore.set_field]; [discriminate|].
  destruct (str_eqb k' k) eqn:E.
  - apply str_eqb_eq in E. intros [= ->]. subst k'. reflexivity.
  - intros H. rewrite (IH H). reflexivity.
Qed.

Lemma set_field_set_field (k : jsstring) (v w : JValue) (o : Doc) :
  Firestore.set_field k v (Firestore.set_field k w o) = Firestore.set_field k v o.
Proof.
  induction o as [|[k' v'] o IH]; cbn [Firestore.set_field].
  - rewrite str_eqb_refl. reflexivity.
  - destruct (str_eqb k' k) eqn:E; cbn [Firestore.set_field].
    + rewrite str_eqb_refl. reflexivity.
    + rewrite E, IH. reflexivity.
Qed.

(** What a store holds after one field of one document was written. *)
Lemma field_written
    (subjectId k : jsstring) (v : JValue) (doc : Doc) (st : Store) :
  (exists doc' : Doc,
     <[subjectId := Firestore.set_field k v doc]> st !! subjectId = Some doc'
     /\ field k doc' = Some v
     /\ (forall k' : jsstring, k' <> k -> field k' doc' = field k' doc))
  /\ (forall other : jsstring,
        other <> subjectId ->
        <[subjectId := Firestore.set_field k v doc]> st !! other = st !! other).
Proof.
  split.
  - exists (Firestore.set_field k v doc). split; [apply lookup_insert_eq|].
    split; [apply field_set_field_eq|].
    intros k' Hk. apply field_set_field_ne. exact Hk.
  - intros other Hother. apply lookup_insert_ne. congruence.
Qed.

(** ** Deleting a subject *)

(** Both handlers for an id that is no document id: the client throws
    when the reference is made and the answer is 500. *)
Example delete_subject_bad_id :
  V1.delete_subject (lit "a/b") ∅
    = (∅, respond 500 (json (message "Internal Server Error")))
  /\ V2.delete_subject (lit "a/b") ∅
     = (∅, respond 500 (send (lit "Error deleting data."))).
Proof. split; reflexivity. Qed.

(** C10, as stated, fails: the id [a/b] (the path [a%2Fb] of a request)
    has no document, and deleting it is answered 500 in both variants. *)
Lemma delete_subject_missing_counterexample :
  ~ (forall (subjectId : jsstring) (st : Store),
       st !! subjectId = None ->
       V1.delete_subject subjectId st
         = (st, respond 200 (json (message "Subject deleted successfully")))
       /\ V2.delete_subject subjectId st = (st, respond 204 send_empty)).
Proof.
  intros H. destruct (H (lit "a/b") ∅ (lookup_empty _)) as [H1 _].
  discriminate H1.
Qed.

(** C10, amended. In both variants, deleting a subject whose id is a
    document id without a stored document answers with the success status
    of the variant (200 and the message in variant 1, 204 and no content
    in variant 2) and leaves the store as it was: the handlers call
    [delete] without looking the document up first. *)
Theorem delete_subject_missing (subjectId : jsstring) (st : Store) :
  document_id subjectId = true ->
  st !! subjectId = None ->
  V1.delete_subject subjectId st
    = (st, respond 200 (json (message "Subject deleted successfully")))
  /\ V2.delete_subject subjectId st = (st, respond 204 send_empty).
Proof.
  intros Hid Hnone.
  unfold V1.delete_subject, V2.delete_subject, try_catch.
  rewrite !(bind_lift_ok _ (Firestore.here subjectId))
    by (apply doc_document_id; exact Hid).
  unfold bind, ret, Firestore.doc_delete.
  rewrite (delete_id st subjectId Hnone). split; reflexivity.
Qed.

Lemma delete_subject_missing_witness :
  document_id (lit "s1") = true
  /\ (∅ : Store) !! lit "s1" = None
  /\ (V1.delete_subject (lit "s1") ∅
        = (∅, respond 200 (json (message "Subject deleted successfully")))
      /\ V2.delete_subject (lit "s1") ∅ = (∅, respond 204 send_empty)).
Proof.
  split; [reflexivity | split; [reflexivity|]].
  apply (delete_subject_missing (lit "s1") ∅); reflexivity.
Defined.
(** ** The first listing of variant 2 *)

Lemma save_all_initialSubjects (st : Store) :
  V2.save_all V2.initialSubjects st = (<[lit "1" := sample_doc]> st, Ok tt).
Proof. reflexivity. Qed.

(** C9. In variant 2 the listing of an empty store does not answer with
    an empty list: it stores the sample subject (id 1, name "Anatomy", two
    files) as document "1" and answers 200 with the sample list.  So a
    listing never answers with an empty list, and the listing of an empty
    store changes the store. *)
Theorem get_subjects_seeds_empty_store :
  exists f1 f2 : JValue,
    let sample : Doc :=
      [(lit "id", JNum 1); (lit "name", JStr (lit "Anatomy"));
       (lit "files", JArr [f1; f2])] in
    V2.initialSubjects = [JObj sample]
    /\ V2.get_subjects ∅
         = ({[ lit "1" := sample ]}, respond 200 (json (JArr [JObj sample])))
    /\ fst (V2.get_subjects ∅) <> ∅
    /\ (forall st : Store,
          exists l : list JValue,
            snd (V2.get_subjects st) = respond 200 (json (JArr l)) /\ l <> []).
Proof.
  assert (Hempty : V2.get_subjects ∅
    = ({[ lit "1" := sample_doc ]}, respond 200 (json (JArr [JObj sample_doc])))).
  { unfold V2.get_subjects, try_catch, bind, Firestore.collection_get.
    rewrite map_to_list_empty. cbn [List.map]; cbv iota beta.
    rewrite save_all_initialSubjects. reflexivity. }
  eexists _, _. cbv zeta.
  split; [reflexivity|]. split; [exact Hempty|]. split.
  - rewrite Hempty. simpl. apply insert_non_empty.
  - intros st. unfold V2.get_subjects, try_catch, bind, Firestore.collection_get.
    destruct (map_to_list st) as [|d ds] eqn:Hdocs.
    + cbn [List.map]; cbv iota beta. rewrite save_all_initialSubjects.
      exists V2.initialSubjects. split; [reflexivity | discriminate].
    + exists (List.map JObj (List.map snd (d :: ds))).
      split; [reflexivity | discriminate].
Qed.

(** ** Creating and renaming a subject (variant 1) *)

Lemma name_invalid_true (name : JValue) :
  (forall s, name = JStr s -> trim s = []) -> V1.name_invalid name = Ok true.
Proof.
  intros Hname. unfold V1.name_invalid.
  destruct name as [| |b|n|s|l|o]; try reflexivity.
  - destruct b; reflexivity.
  - simpl. destruct (n =? 0)%Z; reflexivity.
  - simpl. destruct (str_eqb s []); [reflexivity|].
    simpl. rewrite (Hname s eq_refl). reflexivity.
Qed.

Lemma name_invalid_false (s : jsstring) :
  trim s <> [] -> V1.name_invalid (JStr s) = Ok false.
Proof.
  intros Hs. unfold V1.name_invalid. simpl.
  destruct (str_eqb s []) eqn:E.
  - apply str_eqb_eq in E. subst s. exfalso; apply Hs; reflexivity.
  - simpl. apply str_eqb_neq in Hs. rewrite Hs. reflexivity.
Qed.

(** C2. Creating a subject in variant 1, for a request body whose [name]
    reads as [name] ([undefined] when the body has none).  If [name] is
    missing, not a string, or a string that trims to the empty string, the
    answer is 400 and the store is unchanged.  Otherwise the store gets,
    under the id generated by the server, the subject made of that id, the
    trimmed name and an empty [files] sequence, and the answer is 201 with
    that subject. *)
Theorem post_subjects_spec (env : V1.Env) (body name : JValue) (st : Store) :
  get_prop body (lit "name") = Ok name ->
  ((forall s, name = JStr s -> trim s = []) ->
     V1.post_subjects env body st
     = (st, respond 400 (json (message "Subject name is required."))))
  /\ (forall s, name = JStr s -> trim s <> [] ->
        let newSubject : Doc :=
          [(lit "id", JStr (V1.auto_id env));
           (lit "name", JStr (trim s));
           (lit "files", JArr [])] in
        V1.post_subjects env body st
        = (<[V1.auto_id env := newSubject]> st,
           respond 201 (json (JObj newSubject)))).
Proof.
  intros Hbody. split.
  - intros Hbad. unfold V1.post_subjects. apply try_catch_ok.
    rewrite (bind_lift_ok _ name) by exact Hbody.
    rewrite (bind_lift_ok _ true) by (apply name_invalid_true; exact Hbad).
    reflexivity.
  - intros s -> Hgood newSubject. unfold V1.post_subjects. apply try_catch_ok.
    rewrite (bind_lift_ok _ (JStr s)) by exact Hbody.
    rewrite (bind_lift_ok _ false) by (apply name_invalid_false; exact Hgood).
    reflexivity.
Qed.

Lemma post_subjects_spec_witness :
  get_prop (JObj [(lit "name", JStr (lit " Anatomy "))]) (lit "name")
    = Ok (JStr (lit " Anatomy "))
  /\ V1.post_subjects env_sample (JObj [(lit "name", JStr (lit " Anatomy "))]) ∅
     = ({[ lit "Zq3kT0aB9xLmN2pR7sUv" :=
             [(lit "id", JStr (lit "Zq3kT0aB9xLmN2pR7sUv"));
              (lit "name", JStr (lit "Anatomy"));
              (lit "files", JArr [])] ]},
        respond 201
          (json (JObj [(lit "id", JStr (lit "Zq3kT0aB9xLmN2pR7sUv"));
                       (lit "name", JStr (lit "Anatomy"));
                       (lit "files", JArr [])])))
  /\ V1.post_subjects env_sample (JObj [(lit "name", JStr (lit "  "))]) ∅
     = (∅, respond 400 (json (message "Subject name is required."))).
Proof.
  split; [reflexivity | split].
  - apply (proj2 (post_subjects_spec env_sample
                    (JObj [(lit "name", JStr (lit " Anatomy "))])
                    (JStr (lit " Anatomy ")) ∅ eq_refl)
             (lit " Anatomy ") eq_refl).
    vm_compute. discriminate.
  - apply (proj1 (post_subjects_spec env_sample
                    (JObj [(lit "name", JStr (lit "  "))])
                    (JStr (lit "  ")) ∅ eq_refl)).
    intros s [= <-]. reflexivity.
Defined.

(** C8. Renaming in variant 1 with a [name] that is the empty string or
    missing is answered 400; the store is unchanged, so the listing that
    follows is the listing before the request and still shows the old
    name. *)
Theorem put_subject_empty_name
    (subjectId : jsstring) (body name : JValue) (st : Store) :
  get_prop body (lit "name") = Ok name ->
  name = JStr [] \/ name = JUndefined ->
  V1.put_subject subjectId body st
    = (st, respond 400 (json (message "New name is required.")))
  /\ V1.get_subjects (fst (V1.put_subject subjectId body st))
     = V1.get_subjects st.
Proof.
  intros Hbody Hname.
  assert (H : V1.put_subject subjectId body st
              = (st, respond 400 (json (message "New name is required.")))).
  { unfold V1.put_subject. apply try_catch_ok.
    rewrite (bind_lift_ok _ name) by exact Hbody.
    destruct Hname as [-> | ->]; reflexivity. }
  rewrite H. split; reflexivity.
Qed.

Lemma put_subject_empty_name_witness :
  get_prop (JObj [(lit "name", JStr [])]) (lit "name") = Ok (JStr [])
  /\ (JStr [] = JStr [] \/ JStr [] = JUndefined)
  /\ V1.put_subject (lit "s1") (JObj [(lit "name", JStr [])]) store_sample
     = (store_sample, respond 400 (json (message "New name is required.")))
  /\ V1.get_subjects
       (fst (V1.put_subject (lit "s1") (JObj [(lit "name", JStr [])]) store_sample))
     = V1.get_subjects store_sample.
Proof.
  split; [reflexivity | split; [left; reflexivity |]].
  apply (put_subject_empty_name (lit "s1") (JObj [(lit "name", JStr [])])
           (JStr []) store_sample eq_refl (or_introl eq_refl)).
Defined.

(** ** Deleting a file (variant 1) *)

Lemma has_id_file_id (fileId : jsstring) (f : JValue) :
  has_id fileId f = true <-> file_id f = Some fileId.
Proof.
  unfold has_id. destruct (file_id f) as [i|].
  - rewrite str_eqb_eq. split; congruence.
  - split; discriminate.
Qed.

(** The test of the [find] callback is [has_id], on every entry that is
    not [null]. *)
Lemma get_id_has_id (fileId : jsstring) (f : JValue) :
  is_nullish f = false ->
  exists i, get_prop f (lit "id") = Ok i
            /\ strict_eq_str i fileId = has_id fileId f.
Proof.
  intros Hf. unfold has_id, file_id.
  destruct f as [| |b|n|s|l|o]; try discriminate;
    try (exists JUndefined; split; reflexivity).
  unfold get_prop. destruct (field (lit "id") o) as [v|].
  - exists v. split; [reflexivity|]. destruct v; reflexivity.
  - exists JUndefined. split; reflexivity.
Qed.

Lemma find_by_id_find (fileId : jsstring) (fs : list JValue) :
  Forall (fun f => is_nullish f = false) fs ->
  find_by_id fileId fs
  = Ok (default JUndefined (List.find (has_id fileId) fs)).
Proof.
  induction 1 as [|f fs Hf _ IH]; [reflexivity|].
  destruct (get_id_has_id fileId f Hf) as (i & Hi & Heq).
  cbn [find_by_id List.find]. rewrite Hi, Heq.
  destruct (has_id fileId f); [reflexivity | exact IH].
Qed.

Lemma find_none_has_id (fileId : jsstring) (fs : list JValue) :
  Forall (fun f => has_id fileId f = false) fs ->
  List.find (has_id fileId) fs = None.
Proof.
  induction 1 as [|f fs Hf _ IH]; [reflexivity|].
  cbn [List.find]. rewrite Hf. exact IH.
Qed.

Lemma has_id_truthy (fileId : jsstring) (f : JValue) :
  has_id fileId f = true -> truthy f = true.
Proof.
  unfold has_id, file_id. destruct f; try discriminate. reflexivity.
Qed.


(** The slice of the handler after the subject was read. *)
Lemma delete_file_found
    (subjectId fileId : jsstring) (st : Store) (doc : Doc)
    (fs : list JValue) (f : JValue) :
  document_id subjectId = true ->
  st !! subjectId = Some doc ->
  field (lit "files") doc = Some (JArr fs) ->
  find_by_id fileId fs = Ok f ->
  truthy f = true ->
  V1.delete_file subjectId fileId st
  = (<[subjectId :=
         Firestore.set_field (lit "files")
           (JArr (List.filter (fun g => negb (jv_eqb g f)) fs)) doc]> st,
     respond 200 (json (message "File deleted successfully"))).
Proof.
  intros Hid Hdoc Hfiles Hfind Htruthy.
  unfold V1.delete_file. apply try_catch_ok.
  rewrite (bind_lift_ok _ (Firestore.here subjectId))
    by (apply doc_document_id; exact Hid).
  unfold bind at 1. unfold Firestore.doc_get. rewrite Hdoc.
  rewrite (bind_lift_ok _ (JArr fs))
    by (unfold get_prop; rewrite Hfiles; reflexivity).
  rewrite (bind_lift_ok _ f) by exact Hfind.
  rewrite Htruthy. cbn [negb].
  unfold bind, Firestore.doc_update, ret. cbn [Firestore.writable].
  rewrite Hdoc. unfold Firestore.transform. rewrite Hfiles. reflexivity.
Qed.

Lemma delete_file_absent
    (subjectId fileId : jsstring) (st : Store) (doc : Doc) (fs : list JValue) :
  document_id subjectId = true ->
  st !! subjectId = Some doc ->
  field (lit "files") doc = Some (JArr fs) ->
  find_by_id fileId fs = Ok JUndefined ->
  V1.delete_file subjectId fileId st
  = (st, respond 404 (json (message "File not found."))).
Proof.
  intros Hid Hdoc Hfiles Hfind.
  unfold V1.delete_file. apply try_catch_ok.
  rewrite (bind_lift_ok _ (Firestore.here subjectId))
    by (apply doc_document_id; exact Hid).
  unfold bind at 1. unfold Firestore.doc_get. rewrite Hdoc.
  rewrite (bind_lift_ok _ (JArr fs))
    by (unfold get_prop; rewrite Hfiles; reflexivity).
  rewrite (bind_lift_ok _ JUndefined) by exact Hfind.
  reflexivity.
Qed.

Lemma delete_file_no_subject (subjectId fileId : jsstring) (st : Store) :
  document_id subjectId = true ->
  st !! subjectId = None ->
  V1.delete_file subjectId fileId st
  = (st, respond 404 (json (message "Subject not found."))).
Proof.
  intros Hid Hnone. unfold V1.delete_file. apply try_catch_ok.
  rewrite (bind_lift_ok _ (Firestore.here subjectId))
    by (apply doc_document_id; exact Hid).
  unfold bind, Firestore.doc_get. rewrite Hnone. reflexivity.
Qed.

(** C3, as stated, fails: no subject is stored under [a/b] (the path
    [a%2Fb] of a request), and the delete-file request for it is answered
    500, not 404. *)
Lemma delete_file_not_found_counterexample :
  ~ (forall (subjectId fileId : jsstring) (st : Store),
       st !! subjectId = None ->
       status (snd (V1.delete_file subjectId fileId st)) = 404%Z).
Proof.
  intros H. specialize (H (lit "a/b") (lit "f1") ∅ (lookup_empty _)).
  discriminate H.
Qed.

(** C3, amended. A delete-file request for a subject id that is a
    document id without a document, or for a subject whose files sequence
    has no entry with the file id, is answered 404, and the store after
    the request is the store before. *)
Theorem delete_file_not_found (subjectId fileId : jsstring) (st : Store) :
  document_id subjectId = true ->
  (st !! subjectId = None
   \/ exists (doc : Doc) (fs : list JValue),
        st !! subjectId = Some doc
        /\ field (lit "files") doc = Some (JArr fs)
        /\ Forall (fun f => is_nullish f = false) fs
        /\ Forall (fun f => has_id fileId f = false) fs) ->
  fst (V1.delete_file subjectId fileId st) = st
  /\ status (snd (V1.delete_file subjectId fileId st)) = 404%Z
  /\ exists text, payload (snd (V1.delete_file subjectId fileId st))
                  = json (message text).
Proof.
  intros Hid [Hnone | (doc & fs & Hdoc & Hfiles & Hvalues & Hids)].
  - rewrite (delete_file_no_subject subjectId fileId st Hid Hnone).
    repeat split. eexists; reflexivity.
  - rewrite (delete_file_absent subjectId fileId st doc fs Hid Hdoc Hfiles).
    + repeat split. eexists; reflexivity.
    + rewrite (find_by_id_find fileId fs Hvalues).
      rewrite (find_none_has_id fileId fs Hids). reflexivity.
Qed.

Lemma delete_file_not_found_witness :
  document_id (lit "s1") = true
  /\ (store_one_file !! lit "s1" = None
      \/ exists (doc : Doc) (fs : list JValue),
           store_one_file !! lit "s1" = Some doc
           /\ field (lit "files") doc = Some (JArr fs)
           /\ Forall (fun f => is_nullish f = false) fs
           /\ Forall (fun f => has_id (lit "f2") f = false) fs)
  /\ fst (V1.delete_file (lit "s1") (lit "f2") store_one_file) = store_one_file
  /\ status (snd (V1.delete_file (lit "s1") (lit "f2") store_one_file)) = 404%Z.
Proof.
  assert (H : store_one_file !! lit "s1" = None
   \/ exists (doc : Doc) (fs : list JValue),
        store_one_file !! lit "s1" = Some doc
        /\ field (lit "files") doc = Some (JArr fs)
        /\ Forall (fun f => is_nullish f = false) fs
        /\ Forall (fun f => has_id (lit "f2") f = false) fs).
  { right. eexists _, _. split; [reflexivity|]. split; [reflexivity|].
    split; repeat constructor. }
  split; [reflexivity|]. split; [exact H|].
  destruct (delete_file_not_found (lit "s1") (lit "f2") store_one_file
              eq_refl H) as (H1 & H2 & _).
  split; assumption.
Defined.

Lemma has_id_in_file_ids (fileId : jsstring) (g : JValue) (fs : list JValue) :
  g ∈ fs -> file_id g = Some fileId -> fileId ∈ file_ids fs.
Proof.
  induction 1 as [g fs | g x fs _ IH]; intros Hg; cbn [file_ids].
  - rewrite Hg. left.
  - destruct (file_id x); [right|]; exact (IH Hg).
Qed.

Lemma filter_keeps_all (f : JValue) (fs : list JValue) :
  f ∉ fs -> List.filter (fun g => negb (jv_eqb g f)) fs = fs.
Proof.
  induction fs as [|x fs IH]; [reflexivity|].
  rewrite not_elem_of_cons. intros [Hne Hnotin].
  cbn [List.filter]. rewrite (proj2 (jv_eqb_neq x f)) by congruence.
  cbn [negb]. rewrite IH by exact Hnotin. reflexivity.
Qed.

(** With unique ids, the first entry with the id is the only entry equal
    to it. *)
Lemma unique_id_split (fileId : jsstring) (fs : list JValue) :
  NoDup (file_ids fs) ->
  fileId ∈ file_ids fs ->
  exists (before : list JValue) (f : JValue) (after : list JValue),
    fs = before ++ f :: after
    /\ file_id f = Some fileId
    /\ Forall (fun g => file_id g <> Some fileId) (before ++ after)
    /\ List.find (has_id fileId) fs = Some f
    /\ List.filter (fun g => negb (jv_eqb g f)) fs = before ++ after.
Proof.
  induction fs as [|x fs IH]; cbn [file_ids].
  - intros _ Hin. inversion Hin.
  - intros Hnodup Hin. destruct (has_id fileId x) eqn:Hx.
    + apply has_id_file_id in Hx. rewrite Hx in Hnodup.
      apply NoDup_cons in Hnodup as [Hfresh _].
      assert (Hrest : Forall (fun g => file_id g <> Some fileId) fs).
      { apply Forall_forall. intros g Hg Hid.
        apply Hfresh. exact (has_id_in_file_ids fileId g fs Hg Hid). }
      exists [], x, fs. cbn [app List.find List.filter].
      rewrite (proj2 (has_id_file_id fileId x) Hx), jv_eqb_refl. cbn [negb].
      repeat split; try assumption.
      apply filter_keeps_all. intros Hxin.
      apply Hfresh. exact (has_id_in_file_ids fileId x fs Hxin Hx).
    + assert (Hnot : file_id x <> Some fileId).
      { intros Hid. apply has_id_file_id in Hid. congruence. }
      assert (Htail : NoDup (file_ids fs) /\ fileId ∈ file_ids fs).
      { destruct (file_id x) as [i|]; [|split; assumption].
        apply NoDup_cons in Hnodup as [_ Hnodup].
        apply elem_of_cons in Hin as [-> | Hin]; [congruence | split; assumption]. }
      destruct Htail as [Hnodup' Hin'].
      destruct (IH Hnodup' Hin') as (before & f & after & -> & Hf & Hrest & Hfind & Hfilter).
      exists (x :: before), f, after. cbn [app List.find List.filter].
      rewrite Hx, Hfind, Hfilter.
      rewrite (proj2 (jv_eqb_neq x f)) by congruence. cbn [negb].
      repeat split; try assumption.
      constructor; assumption.
Qed.


Lemma filter_other_values (f : JValue) (fs : list JValue) :
  List.filter (fun g => negb (jv_eqb g f)) fs = filter (fun g => g <> f) fs.
Proof.
  induction fs as [|x fs IH]; [reflexivity|].
  cbn [List.filter]. destruct (jv_eqb x f) eqn:E; cbn [negb].
  - apply jv_eqb_eq in E. rewrite filter_cons_False by (intros H; exact (H E)).
    exact IH.
  - apply jv_eqb_neq in E. rewrite filter_cons_True by exact E.
    rewrite IH. reflexivity.
Qed.

(** C1. In variant 1, for a stored subject whose files sequence has
    unique file ids and holds a file with id [fileId], deleting [fileId]
    answers 200 and removes exactly that file: the sequence was
    [before ++ f :: after] with [f] the file of that id, no file of
    [before ++ after] has the id, and the document read back from the
    store after the request has the files sequence [before ++ after] and
    every other field as before; the other documents are untouched. *)
Theorem delete_file_removes_exactly
    (subjectId fileId : jsstring) (st : Store) (doc : Doc) (fs : list JValue) :
  document_id subjectId = true ->
  st !! subjectId = Some doc ->
  field (lit "files") doc = Some (JArr fs) ->
  Forall (fun f => is_nullish f = false) fs ->
  NoDup (file_ids fs) ->
  fileId ∈ file_ids fs ->
  exists (before : list JValue) (f : JValue) (after : list JValue)
         (st' : Store) (doc' : Doc),
    fs = before ++ f :: after
    /\ file_id f = Some fileId
    /\ Forall (fun g => file_id g <> Some fileId) (before ++ after)
    /\ V1.delete_file subjectId fileId st
       = (st', respond 200 (json (message "File deleted successfully")))
    /\ st' !! subjectId = Some doc'
    /\ field (lit "files") doc' = Some (JArr (before ++ after))
    /\ (forall k : jsstring, k <> lit "files" -> field k doc' = field k doc)
    /\ (forall other : jsstring, other <> subjectId -> st' !! other = st !! other).
Proof.
  intros Hid Hdoc Hfiles Hvalues Hnodup Hin.
  destruct (unique_id_split fileId fs Hnodup Hin)
    as (before & f & after & Hfs & Hf & Hrest & Hfind & Hfilter).
  destruct (field_written subjectId (lit "files") (JArr (before ++ after)) doc st)
    as [(doc' & Hdoc' & Hread & Hkept) Hothers].
  eexists before, f, after, _, doc'.
  split; [exact Hfs|]. split; [exact Hf|]. split; [exact Hrest|].
  split; [|split; [exact Hdoc'|split; [exact Hread|split; [exact Hkept|exact Hothers]]]].
  rewrite <- Hfilter.
  apply delete_file_found; try assumption.
  - rewrite (find_by_id_find fileId fs Hvalues), Hfind. reflexivity.
  - apply (has_id_truthy fileId). apply has_id_file_id. exact Hf.
Qed.

Lemma delete_file_removes_exactly_witness :
  exists (before : list JValue) (f : JValue) (after : list JValue)
         (st' : Store) (doc' : Doc),
    files_three = before ++ f :: after
    /\ file_id f = Some (lit "f2")
    /\ Forall (fun g => file_id g <> Some (lit "f2")) (before ++ after)
    /\ V1.delete_file (lit "s1") (lit "f2") store_three_files
       = (st', respond 200 (json (message "File deleted successfully")))
    /\ st' !! lit "s1" = Some doc'
    /\ field (lit "files") doc' = Some (JArr (before ++ after))
    /\ (forall k : jsstring,
          k <> lit "files" ->
          field k doc' = field k (subject_sample "s1" "Anatomy" files_three))
    /\ (forall other : jsstring,
          other <> lit "s1" -> st' !! other = store_three_files !! other).
Proof.
  apply (delete_file_removes_exactly (lit "s1") (lit "f2") store_three_files
           (subject_sample "s1" "Anatomy" files_three) files_three).
  - reflexivity.
  - reflexivity.
  - reflexivity.
  - repeat constructor.
  - apply (bool_decide_unpack _). vm_compute. reflexivity.
  - apply (bool_decide_unpack _). vm_compute. reflexivity.
Defined.

(** Deleting the middle one of three files. *)
Example delete_file_middle :
  V1.delete_file (lit "s1") (lit "f2") store_three_files
  = ({[ lit "s1" :=
          subject_sample "s1" "Anatomy"
            [file_sample "f1" "a.txt" "A"; file_sample "f3" "c.txt" "C"] ]},
     respond 200 (json (message "File deleted successfully"))).
Proof. vm_compute. reflexivity. Qed.

(** C7. In variant 1 the entry to delete is found by its id, and the
    store then removes by value: with [f] the first entry whose id is
    [fileId], the files sequence read back from the store after the
    request is the sequence before without the entries that are
    structurally equal to [f], in the order they had.  An entry stays
    exactly when its whole value differs from [f], whatever its id. *)
Theorem delete_file_matches_by_value
    (subjectId fileId : jsstring) (st : Store) (doc : Doc)
    (fs : list JValue) (f : JValue) :
  document_id subjectId = true ->
  st !! subjectId = Some doc ->
  field (lit "files") doc = Some (JArr fs) ->
  find_by_id fileId fs = Ok f ->
  truthy f = true ->
  exists (st' : Store) (doc' : Doc) (fs' : list JValue),
    V1.delete_file subjectId fileId st
    = (st', respond 200 (json (message "File deleted successfully")))
    /\ st' !! subjectId = Some doc'
    /\ field (lit "files") doc' = Some (JArr fs')
    /\ fs' = filter (fun g => g <> f) fs
    /\ (forall g : JValue, g ∈ fs' <-> g ∈ fs /\ g <> f).
Proof.
  intros Hid Hdoc Hfiles Hfind Htruthy.
  destruct (field_written subjectId (lit "files")
              (JArr (filter (fun g => g <> f) fs)) doc st)
    as [(doc' & Hdoc' & Hread & _) _].
  eexists _, doc', (filter (fun g => g <> f) fs).
  split; [|split; [exact Hdoc'|split; [exact Hread|split; [reflexivity|]]]].
  - rewrite <- filter_other_values. apply delete_file_found; assumption.
  - intros g. rewrite list_elem_of_filter. tauto.
Qed.

Lemma delete_file_matches_by_value_witness :
  exists (st' : Store) (doc' : Doc) (fs' : list JValue),
    V1.delete_file (lit "s1") (lit "f1")
      {[ lit "s1" := subject_sample "s1" "Anatomy" files_same_id ]}
    = (st', respond 200 (json (message "File deleted successfully")))
    /\ st' !! lit "s1" = Some doc'
    /\ field (lit "files") doc' = Some (JArr fs')
    /\ fs' = filter (fun g => g <> file_sample "f1" "a.txt" "A") files_same_id
    /\ (forall g : JValue,
          g ∈ fs' <-> g ∈ files_same_id /\ g <> file_sample "f1" "a.txt" "A").
Proof.
  apply (delete_file_matches_by_value (lit "s1") (lit "f1")
           {[ lit "s1" := subject_sample "s1" "Anatomy" files_same_id ]}
           (subject_sample "s1" "Anatomy" files_same_id)
           files_same_id (file_sample "f1" "a.txt" "A"));
    reflexivity.
Defined.

(** On [files_same_id] the request removes the first entry; the second
    stays although it has the id. *)
Example delete_file_same_id_other_content :
  V1.delete_file (lit "s1") (lit "f1")
    {[ lit "s1" := subject_sample "s1" "Anatomy" files_same_id ]}
  = ({[ lit "s1" :=
          subject_sample "s1" "Anatomy" [file_sample "f1" "a.txt" "changed"] ]},
     respond 200 (json (message "File deleted successfully"))).
Proof. vm_compute. reflexivity. Qed.

(** Two identical entries: one request removes both. *)
Example delete_file_identical_copies :
  V1.delete_file (lit "s1") (lit "f1")
    {[ lit "s1" :=
         subject_sample "s1" "Anatomy"
           [file_sample "f1" "a.txt" "A";
            file_sample "f2" "b.txt" "B";
            file_sample "f1" "a.txt" "A"] ]}
  = ({[ lit "s1" :=
          subject_sample "s1" "Anatomy" [file_sample "f2" "b.txt" "B"] ]},
     respond 200 (json (message "File deleted successfully"))).
Proof. vm_compute. reflexivity. Qed.

(** ** Adding a file (variant 1) *)

Lemma existsb_not_elem (e : JValue) (fs : list JValue) :
  e ∉ fs -> existsb (fun x => jv_eqb x e) fs = false.
Proof.
  induction fs as [|x fs IH]; [reflexivity|].
  rewrite not_elem_of_cons. intros [Hne Hnotin].
  cbn [existsb]. rewrite (proj2 (jv_eqb_neq x e)) by congruence.
  exact (IH Hnotin).
Qed.

Lemma existsb_elem (e : JValue) (fs : list JValue) :
  e ∈ fs -> existsb (fun x => jv_eqb x e) fs = true.
Proof.
  intros Hin. apply existsb_exists. exists e.
  split; [apply list_elem_of_In; exact Hin | apply jv_eqb_refl].
Qed.

(** A file whose id no entry has is not among the entries. *)
Lemma fresh_id_not_elem (i : jsstring) (name content : JValue) (fs : list JValue) :
  i ∉ file_ids fs ->
  JObj [(lit "id", JStr i); (lit "name", name); (lit "content", content)] ∉ fs.
Proof.
  intros Hfresh Hin. apply Hfresh.
  apply (has_id_in_file_ids i _ fs Hin). reflexivity.
Qed.

(** The handler on a stored subject, for a file the store accepts. *)
Lemma post_file_appended
    (env : V1.Env) (subjectId : jsstring) (body name content : JValue)
    (st : Store) (doc : Doc) (fs : list JValue) :
  document_id subjectId = true ->
  get_prop body (lit "name") = Ok name ->
  get_prop body (lit "content") = Ok content ->
  truthy name = true ->
  truthy content = true ->
  Firestore.storable_entry
    (JObj [(lit "id", JStr (V1.new_file_id env));
           (lit "name", name); (lit "content", content)]) = true ->
  st !! subjectId = Some doc ->
  field (lit "files") doc = Some (JArr fs) ->
  V1.post_file env subjectId body st
  = (<[subjectId :=
         Firestore.set_field (lit "files")
           (JArr (if existsb
                       (fun x =>
                          jv_eqb x (JObj [(lit "id", JStr (V1.new_file_id env));
                                          (lit "name", name);
                                          (lit "content", content)])) fs
                  then fs
                  else fs ++ [JObj [(lit "id", JStr (V1.new_file_id env));
                                    (lit "name", name);
                                    (lit "content", content)]]))
           doc]> st,
     respond 201 (json (JObj [(lit "id", JStr (V1.new_file_id env));
                              (lit "name", name);
                              (lit "content", content)]))).
Proof.
  intros Hid Hname Hcontent Tname Tcontent Hstorable Hdoc Hfiles.
  unfold V1.post_file. apply try_catch_ok.
  rewrite (bind_lift_ok _ name) by exact Hname.
  rewrite (bind_lift_ok _ content) by exact Hcontent.
  rewrite Tname, Tcontent. cbn [negb orb].
  rewrite (bind_lift_ok _ (Firestore.here subjectId))
    by (apply doc_document_id; exact Hid).
  unfold bind at 1. unfold Firestore.doc_get. rewrite Hdoc.
  unfold bind, Firestore.doc_update, ret. cbn [Firestore.writable].
  rewrite Hstorable, Hdoc.
  unfold Firestore.transform. rewrite Hfiles. reflexivity.
Qed.

Lemma post_file_no_subject
    (env : V1.Env) (subjectId : jsstring) (body name content : JValue)
    (st : Store) :
  document_id subjectId = true ->
  get_prop body (lit "name") = Ok name ->
  get_prop body (lit "content") = Ok content ->
  truthy name = true ->
  truthy content = true ->
  st !! subjectId = None ->
  V1.post_file env subjectId body st
  = (st, respond 404 (json (message "Subject not found."))).
Proof.
  intros Hid Hname Hcontent Tname Tcontent Hnone.
  unfold V1.post_file. apply try_catch_ok.
  rewrite (bind_lift_ok _ name) by exact Hname.
  rewrite (bind_lift_ok _ content) by exact Hcontent.
  rewrite Tname, Tcontent. cbn [negb orb].
  rewrite (bind_lift_ok _ (Firestore.here subjectId))
    by (apply doc_document_id; exact Hid).
  unfold bind, Firestore.doc_get. rewrite Hnone. reflexivity.
Qed.

(** The same request twice with the same draws: [arrayUnion] finds the
    file in the sequence and adds nothing. *)
Example post_file_same_draws_twice :
  fst (V1.post_file env_sample (lit "s1") body_file_sample
         (fst (V1.post_file env_sample (lit "s1") body_file_sample store_one_file)))
  = fst (V1.post_file env_sample (lit "s1") body_file_sample store_one_file).
Proof. vm_compute. reflexivity. Qed.

(** C4, as stated, fails: the subject exists, name and content are not
    empty, and yet nothing is appended, since the subject already holds
    the very file the request makes. *)
Lemma post_file_spec_counterexample :
  ~ (forall (env : V1.Env) (subjectId : jsstring) (body name content : JValue)
            (st : Store) (doc : Doc) (fs : list JValue),
       get_prop body (lit "name") = Ok name ->
       get_prop body (lit "content") = Ok content ->
       truthy name = true ->
       truthy content = true ->
       st !! subjectId = Some doc ->
       field (lit "files") doc = Some (JArr fs) ->
       exists doc' : Doc,
         fst (V1.post_file env subjectId body st) !! subjectId = Some doc'
         /\ field (lit "files") doc'
            = Some (JArr (fs ++ [JObj [(lit "id", JStr (V1.new_file_id env));
                                       (lit "name", name);
                                       (lit "content", content)]]))).
Proof.
  intros H.
  destruct (H env_sample (lit "s1") body_file_sample
              (JStr (lit "b.txt")) (JStr (lit "B"))
              {[ lit "s1" := subject_sample "s1" "Anatomy" [file_new_sample] ]}
              (subject_sample "s1" "Anatomy" [file_new_sample])
              [file_new_sample]
              eq_refl eq_refl eq_refl eq_refl
              (lookup_singleton_eq _ _) eq_refl)
    as (doc' & Hdoc' & Hfiles').
  vm_compute in Hdoc'. injection Hdoc' as <-. discriminate Hfiles'.
Qed.

(** C4, amended. Adding a file in variant 1, for a subject id that is a
    document id and a request body with truthy (non-empty) [name] and
    [content].  If the subject has no document the answer is 404 and the
    store is unchanged.  If it has one, whose files sequence is [fs], and
    the new file (the generated id with the name and content of the
    request) is a value the store accepts and not already an entry of
    [fs], then the answer is 201 with the new file, and the document read
    back from the store has the files sequence [fs ++ [newFile]] and every
    other field as before; the other documents are untouched. *)
Theorem post_file_spec
    (env : V1.Env) (subjectId : jsstring) (body name content : JValue)
    (st : Store) :
  document_id subjectId = true ->
  get_prop body (lit "name") = Ok name ->
  get_prop body (lit "content") = Ok content ->
  truthy name = true ->
  truthy content = true ->
  let newFile :=
    JObj [(lit "id", JStr (V1.new_file_id env));
          (lit "name", name);
          (lit "content", content)] in
  (st !! subjectId = None ->
     V1.post_file env subjectId body st
     = (st, respond 404 (json (message "Subject not found."))))
  /\ (forall (doc : Doc) (fs : list JValue),
        st !! subjectId = Some doc ->
        field (lit "files") doc = Some (JArr fs) ->
        Firestore.storable_entry newFile = true ->
        newFile ∉ fs ->
        exists (st' : Store) (doc' : Doc),
          V1.post_file env subjectId body st = (st', respond 201 (json newFile))
          /\ st' !! subjectId = Some doc'
          /\ field (lit "files") doc' = Some (JArr (fs ++ [newFile]))
          /\ (forall k : jsstring, k <> lit "files" -> field k doc' = field k doc)
          /\ (forall other : jsstring,
                other <> subjectId -> st' !! other = st !! other)).
Proof.
  intros Hid Hname Hcontent Tname Tcontent newFile. split.
  - intros Hnone. apply (post_file_no_subject env subjectId body name content);
      assumption.
  - intros doc fs Hdoc Hfiles Hstorable Hnew.
    destruct (field_written subjectId (lit "files") (JArr (fs ++ [newFile])) doc st)
      as [(doc' & Hdoc' & Hread & Hkept) Hothers].
    eexists _, doc'.
    split; [|split; [exact Hdoc'|split; [exact Hread|split; [exact Hkept|exact Hothers]]]].
    rewrite (post_file_appended env subjectId body name content st doc fs)
      by assumption.
    fold newFile. rewrite (existsb_not_elem newFile fs Hnew). reflexivity.
Qed.

Lemma post_file_spec_witness :
  V1.post_file env_sample (lit "s2") body_file_sample store_one_file
  = (store_one_file, respond 404 (json (message "Subject not found.")))
  /\ exists (st' : Store) (doc' : Doc),
       V1.post_file env_sample (lit "s1") body_file_sample store_one_file
       = (st', respond 201 (json file_new_sample))
       /\ st' !! lit "s1" = Some doc'
       /\ field (lit "files") doc'
          = Some (JArr ([file_sample "f1" "a.txt" "A"] ++ [file_new_sample]))
       /\ (forall k : jsstring,
             k <> lit "files" ->
             field k doc'
             = field k (subject_sample "s1" "Anatomy" [file_sample "f1" "a.txt" "A"]))
       /\ (forall other : jsstring,
             other <> lit "s1" -> st' !! other = store_one_file !! other).
Proof.
  split.
  - apply (proj1 (post_file_spec env_sample (lit "s2") body_file_sample
                    (JStr (lit "b.txt")) (JStr (lit "B")) store_one_file
                    eq_refl eq_refl eq_refl eq_refl eq_refl)).
    reflexivity.
  - apply (proj2 (post_file_spec env_sample (lit "s1") body_file_sample
                    (JStr (lit "b.txt")) (JStr (lit "B")) store_one_file
                    eq_refl eq_refl eq_refl eq_refl eq_refl)
             (subject_sample "s1" "Anatomy" [file_sample "f1" "a.txt" "A"])
             [file_sample "f1" "a.txt" "A"]).
    + reflexivity.
    + reflexivity.
    + reflexivity.
    + apply (bool_decide_unpack _). vm_compute. reflexivity.
Defined.
(** ** The ids of new files *)

Lemma undigits_digits_rev (fuel : nat) (n : N) :
  n < 2 ^ N.of_nat fuel -> undigits (digits_rev fuel n) = n.
Proof.
  revert n; induction fuel as [|fuel IH]; intros n Hn.
  - simpl in Hn. simpl. lia.
  - rewrite Nat2N.inj_succ, N.pow_succ_r' in Hn.
    cbn [digits_rev]. destruct (n <? 10) eqn:E.
    + apply N.ltb_lt in E. cbn [undigits]. rewrite N.mod_small by exact E. lia.
    + cbn [undigits]. rewrite IH.
      * pose proof (N.div_mod n 10 ltac:(lia)) as Hdm.
        generalize dependent (n / 10). generalize dependent (n mod 10).
        intros; lia.
      * apply N.Div0.div_lt_upper_bound; lia.
Qed.

Lemma decimal_fuel (n : N) : n < 2 ^ N.of_nat (S (N.to_nat (N.log2 n))).
Proof.
  rewrite Nat2N.inj_succ, N2Nat.id.
  destruct (N.eq_dec n 0) as [-> | Hn]; [reflexivity|].
  apply N.log2_spec. lia.
Qed.

Lemma decimal_inj (a b : N) : decimal a = decimal b -> a = b.
Proof.
  unfold decimal. intros H.
  apply (f_equal (@rev N)) in H. rewrite !rev_involutive in H.
  rewrite <- (undigits_digits_rev _ a (decimal_fuel a)).
  rewrite <- (undigits_digits_rev _ b (decimal_fuel b)).
  rewrite H. reflexivity.
Qed.

Lemma decimal_nonempty (n : N) : decimal n <> [].
Proof.
  unfold decimal. cbn [digits_rev rev]. intros H.
  apply app_eq_nil in H as [_ H]. discriminate.
Qed.

Lemma digits_rev_length (k fuel : nat) (n : N) :
  n < 2 ^ N.of_nat (S fuel) ->
  n < 10 ^ N.of_nat (S k) ->
  (k = O \/ 10 ^ N.of_nat k <= n) ->
  length (digits_rev (S fuel) n) = S k.
Proof.
  revert fuel n; induction k as [|k IH]; intros fuel n Hfuel Hlt Hge.
  - cbn [digits_rev]. change (10 ^ N.of_nat 1) with 10 in Hlt.
    rewrite (proj2 (N.ltb_lt n 10)) by exact Hlt. reflexivity.
  - destruct Hge as [Hk | Hge]; [discriminate|].
    rewrite Nat2N.inj_succ, N.pow_succ_r' in Hge.
    rewrite Nat2N.inj_succ, N.pow_succ_r' in Hlt.
    assert (H1 : 10 ^ N.of_nat k <> 0) by (apply N.pow_nonzero; lia).
    cbn [digits_rev]. rewrite (proj2 (N.ltb_ge n 10)) by lia.
    destruct fuel as [|fuel].
    { change (2 ^ N.of_nat 1) with 2 in Hfuel. lia. }
    cbn [length]. f_equal. apply IH.
    + rewrite Nat2N.inj_succ, N.pow_succ_r' in Hfuel.
      apply N.Div0.div_lt_upper_bound; lia.
    + apply N.Div0.div_lt_upper_bound; lia.
    + right. apply N.div_le_lower_bound; lia.
Qed.

(** Every clock reading from 2001-09-09 to 2286-11-20 has thirteen
    digits. *)
Lemma decimal_length_13 (t : N) :
  10 ^ 12 <= t < 10 ^ 13 -> length (decimal t) = 13%nat.
Proof.
  intros [Hge Hlt]. unfold decimal. rewrite length_rev.
  apply digits_rev_length.
  - apply decimal_fuel.
  - exact Hlt.
  - right. exact Hge.
Qed.

Lemma post_file_created
    (env : V1.Env) (subjectId : jsstring) (body : JValue) (st : Store) :
  status (snd (V1.post_file env subjectId body st)) = 201%Z ->
  exists name content : JValue,
    snd (V1.post_file env subjectId body st)
    = respond 201
        (json (JObj [(lit "id", JStr (V1.new_file_id env));
                     (lit "name", name);
                     (lit "content", content)])).
Proof.
  unfold_handlers. split_cases; cbn [snd status]; try discriminate.
  all: intros _; eexists _, _; reflexivity.
Qed.

(** C5, as stated, fails: two calls in the same millisecond whose random
    draws differ, but only after their tenth fractional digit, make the
    same id. *)
Lemma new_file_id_distinct_counterexample :
  ~ (forall env env' : V1.Env,
       (V1.now_millis env, V1.random_text env)
       <> (V1.now_millis env', V1.random_text env') ->
       V1.new_file_id env <> V1.new_file_id env').
Proof.
  intros H.
  apply (H {| V1.auto_id := []; V1.now_millis := 1700000000000;
              V1.random_text := lit "0.abcdefghi1x" |}
           {| V1.auto_id := []; V1.now_millis := 1700000000000;
              V1.random_text := lit "0.abcdefghi2y" |}).
  - discriminate.
  - reflexivity.
Qed.

(** Without the condition on the digits two different pairs of draws can
    give one id. *)
Example new_file_id_digits_needed :
  V1.new_file_id {| V1.auto_id := []; V1.now_millis := 1;
                    V1.random_text := lit "0.23" |}
  = V1.new_file_id {| V1.auto_id := []; V1.now_millis := 12;
                      V1.random_text := lit "0.3" |}.
Proof. reflexivity. Qed.

(** C5, amended. The id of the file in a 201 answer of the add-file
    handler is made of the decimal text of the clock reading followed by
    characters 2 to 10 of the base-36 text of the random draw, and is
    never empty.  Two calls whose clock readings have the same number of
    digits (thirteen for every reading from 2001 to 2286,
    [decimal_length_13]) and that differ in the clock reading or in
    characters 2 to 10 of the random text make different ids. *)
Theorem new_file_id_distinct (env env' : V1.Env) :
  length (decimal (V1.now_millis env)) = length (decimal (V1.now_millis env')) ->
  (V1.now_millis env <> V1.now_millis env'
   \/ firstn 9 (skipn 2 (V1.random_text env))
      <> firstn 9 (skipn 2 (V1.random_text env'))) ->
  (forall (subjectId : jsstring) (body : JValue) (st : Store),
     status (snd (V1.post_file env subjectId body st)) = 201%Z ->
     exists name content : JValue,
       snd (V1.post_file env subjectId body st)
       = respond 201
           (json (JObj [(lit "id", JStr (V1.new_file_id env));
                        (lit "name", name);
                        (lit "content", content)])))
  /\ firstn (length (decimal (V1.now_millis env))) (V1.new_file_id env)
     = decimal (V1.now_millis env)
  /\ skipn (length (decimal (V1.now_millis env))) (V1.new_file_id env)
     = firstn 9 (skipn 2 (V1.random_text env))
  /\ V1.new_file_id env <> []
  /\ V1.new_file_id env <> V1.new_file_id env'.
Proof.
  intros Hlen Hdiff. split; [|split; [|split; [|split]]].
  - intros subjectId body st. apply post_file_created.
  - unfold V1.new_file_id.
    rewrite firstn_app, Nat.sub_diag, firstn_all. cbn [firstn]. apply app_nil_r.
  - unfold V1.new_file_id, substr.
    rewrite skipn_app, Nat.sub_diag, skipn_all. reflexivity.
  - unfold V1.new_file_id. intros H.
    apply app_eq_nil in H as [H _]. exact (decimal_nonempty _ H).
  - unfold V1.new_file_id, substr. intros H.
    apply app_inj_1 in H; [|exact Hlen].
    destruct H as [Ht Hs]. apply decimal_inj in Ht.
    destruct Hdiff as [Hdiff | Hdiff]; contradiction.
Qed.

Lemma new_file_id_distinct_witness :
  length (decimal (V1.now_millis env_sample))
    = length (decimal (V1.now_millis env_other_draw))
  /\ firstn 9 (skipn 2 (V1.random_text env_sample))
     <> firstn 9 (skipn 2 (V1.random_text env_other_draw))
  /\ skipn (length (decimal (V1.now_millis env_sample))) (V1.new_file_id env_sample)
     = firstn 9 (skipn 2 (V1.random_text env_sample))
  /\ V1.new_file_id env_sample <> []
  /\ V1.new_file_id env_sample <> V1.new_file_id env_other_draw.
Proof.
  split; [reflexivity|]. split; [discriminate|].
  apply (new_file_id_distinct env_sample env_other_draw).
  - reflexivity.
  - right. discriminate.
Defined.

(** ** Which documents a request writes *)










(** The listing of variant 2 on a collection with a document "1": it is
    not written over. *)
Example v2_listing_keeps_document_1 :
  V2.get_subjects {[ lit "1" := subject_sample "1" "Histology" [] ]}
  = ({[ lit "1" := subject_sample "1" "Histology" [] ]},
     respond 200 (json (JArr [JObj (subject_sample "1" "Histology" [])]))).
Proof. vm_compute. reflexivity. Qed.
(** ** The documents variant 1 keeps *)

Lemma is_file_not_nullish (f : JValue) : is_file f -> is_nullish f = false.
Proof. intros [i Hi]. destruct f; try discriminate; reflexivity. Qed.

Lemma subject_doc_files (doc : Doc) :
  subject_doc doc ->
  exists fs : list JValue,
    field (lit "files") doc = Some (JArr fs)
    /\ Forall (fun f => is_nullish f = false) fs.
Proof.
  intros (fs & Hfiles & Hfs). exists fs. split; [exact Hfiles|].
  eapply Forall_impl; [exact Hfs | exact is_file_not_nullish].
Qed.

Lemma subject_doc_set_files (doc : Doc) (fs : list JValue) :
  Forall is_file fs ->
  subject_doc (Firestore.set_field (lit "files") (JArr fs) doc).
Proof.
  intros Hfs. exists fs. split; [apply field_set_field_eq | exact Hfs].
Qed.

Lemma subject_doc_set_name (doc : Doc) (v : JValue) :
  subject_doc doc -> subject_doc (Firestore.set_field (lit "name") v doc).
Proof.
  intros (fs & Hfiles & Hfs). exists fs. split; [|exact Hfs].
  rewrite field_set_field_ne; [exact Hfiles | discriminate].
Qed.

(** The store of variant 1 starts empty, and every request keeps it a
    store of subjects: each document has a [files] array whose entries are
    objects with a string id.  These are the stores the statements about
    files are about. *)
Lemma v1_handle_keeps_subjects (env : V1.Env) (req : V1.Request) (st : Store) :
  subjects_store st -> subjects_store (fst (V1.handle env req st)).
Proof.
  intros Hst. destruct req; cbn [V1.handle]; unfold_handlers; split_cases;
    cbn [fst]; try exact Hst.
  - apply map_Forall_insert_2; [|exact Hst].
    exists []. split; [reflexivity | constructor].
  - apply map_Forall_insert_2; [|exact Hst].
    apply subject_doc_set_name.
    match goal with H : st !! _ = Some _ |- _ => exact (Hst _ _ H) end.
  - apply map_Forall_delete. exact Hst.
  - apply map_Forall_insert_2; [|exact Hst].
    match goal with
    | H : st !! _ = Some _ |- _ => destruct (Hst _ _ H) as (fs & Hfiles & Hfs)
    end.
    unfold Firestore.transform. rewrite Hfiles.
    apply subject_doc_set_files.
    destruct (existsb _ fs); [exact Hfs|].
    apply Forall_app. split; [exact Hfs|].
    constructor; [|constructor]. eexists; reflexivity.
  - apply map_Forall_insert_2; [|exact Hst].
    match goal with
    | H : st !! _ = Some _ |- _ => destruct (Hst _ _ H) as (fs & Hfiles & Hfs)
    end.
    unfold Firestore.transform. rewrite Hfiles.
    apply subject_doc_set_files.
    apply Forall_forall. intros g Hg.
    apply list_elem_of_In, filter_In in Hg as [Hg _].
    apply list_elem_of_In in Hg.
    rewrite Forall_forall in Hfs. exact (Hfs g Hg).
Qed.

Lemma subjects_store_empty : subjects_store ∅.
Proof. apply map_Forall_empty. Qed.
(** * Further properties of the handlers *)

(** ** Shared steps *)

Lemma v1_get_subjects_listing (st : Store) :
  V1.get_subjects st = (st, respond 200 (json (JArr (listing st)))).
Proof. reflexivity. Qed.

Lemma post_subjects_created (env : V1.Env) (body : JValue) (s : jsstring) (st : Store) :
  get_prop body (lit "name") = Ok (JStr s) ->
  trim s <> [] ->
  V1.post_subjects env body st
  = (<[V1.auto_id env :=
         [(lit "id", JStr (V1.auto_id env));
          (lit "name", JStr (trim s));
          (lit "files", JArr [])]]> st,
     respond 201
       (json (JObj [(lit "id", JStr (V1.auto_id env));
                    (lit "name", JStr (trim s));
                    (lit "files", JArr [])]))).
Proof.
  intros Hbody Hgood. unfold V1.post_subjects. apply try_catch_ok.
  rewrite (bind_lift_ok _ (JStr s)) by exact Hbody.
  rewrite (bind_lift_ok _ false) by (apply name_invalid_false; exact Hgood).
  reflexivity.
Qed.

Lemma listing_insert_fresh (k : jsstring) (d : Doc) (st : Store) :
  st !! k = None -> listing (<[k := d]> st) ≡ₚ JObj d :: listing st.
Proof.
  intros Hfresh. unfold listing.
  change (JObj d :: List.map JObj (List.map snd (map_to_list st)))
    with (List.map JObj (List.map snd ((k, d) :: map_to_list st))).
  apply Permutation_map, Permutation_map.
  apply map_to_list_insert. exact Hfresh.
Qed.

Lemma listing_delete (k : jsstring) (d : Doc) (st : Store) :
  st !! k = Some d -> listing st ≡ₚ JObj d :: listing (delete k st).
Proof.
  intros Hdoc. unfold listing.
  change (JObj d :: List.map JObj (List.map snd (map_to_list (delete k st))))
    with (List.map JObj (List.map snd ((k, d) :: map_to_list (delete k st)))).
  apply Permutation_map, Permutation_map.
  symmetry. apply map_to_list_delete. exact Hdoc.
Qed.

(** ** Subjects: create, list, rename, delete (variant 1) *)

(** X1. Creating a subject under an id no document has, then listing:
    the listing answers 200 with the listing before plus the new subject,
    once (up to the order of the documents). *)
Theorem create_then_list
    (env : V1.Env) (body : JValue) (s : jsstring) (st : Store) :
  get_prop body (lit "name") = Ok (JStr s) ->
  trim s <> [] ->
  st !! V1.auto_id env = None ->
  exists shown : list JValue,
    snd (V1.get_subjects (fst (V1.post_subjects env body st)))
    = respond 200 (json (JArr shown))
    /\ shown ≡ₚ JObj [(lit "id", JStr (V1.auto_id env));
                      (lit "name", JStr (trim s));
                      (lit "files", JArr [])] :: listing st.
Proof.
  intros Hbody Hgood Hfresh.
  rewrite (post_subjects_created env body s st Hbody Hgood).
  cbn [fst]. rewrite v1_get_subjects_listing. cbn [snd].
  eexists. split; [reflexivity|].
  apply listing_insert_fresh. exact Hfresh.
Qed.

Lemma create_then_list_witness :
  exists shown : list JValue,
    snd (V1.get_subjects
           (fst (V1.post_subjects env_sample
                   (JObj [(lit "name", JStr (lit " Histology "))]) store_sample)))
    = respond 200 (json (JArr shown))
    /\ shown ≡ₚ JObj [(lit "id", JStr (V1.auto_id env_sample));
                      (lit "name", JStr (trim (lit " Histology ")));
                      (lit "files", JArr [])] :: listing store_sample.
Proof.
  apply (create_then_list env_sample
           (JObj [(lit "name", JStr (lit " Histology "))])
           (lit " Histology ") store_sample).
  - reflexivity.
  - vm_compute. discriminate.
  - reflexivity.
Defined.

(** X2. Deleting a subject that is stored under a document id: the answer is 200, the
    document is gone, the listing loses exactly that document, and its
    files cannot be reached any more: deleting one of them and adding one
    are both answered 404. *)
Theorem delete_subject_stored
    (env : V1.Env) (subjectId : jsstring) (doc : Doc) (st : Store) :
  document_id subjectId = true ->
  st !! subjectId = Some doc ->
  exists st' : Store,
    V1.delete_subject subjectId st
    = (st', respond 200 (json (message "Subject deleted successfully")))
    /\ st' !! subjectId = None
    /\ listing st ≡ₚ JObj doc :: listing st'
    /\ (forall fileId : jsstring,
          V1.delete_file subjectId fileId st'
          = (st', respond 404 (json (message "Subject not found."))))
    /\ (forall body name content : JValue,
          get_prop body (lit "name") = Ok name ->
          get_prop body (lit "content") = Ok content ->
          truthy name = true -> truthy content = true ->
          V1.post_file env subjectId body st'
          = (st', respond 404 (json (message "Subject not found.")))).
Proof.
  intros Hid Hdoc. exists (delete subjectId st).
  assert (Hgone : delete subjectId st !! subjectId = None)
    by apply lookup_delete_eq.
  split; [|split; [exact Hgone|]].
  { unfold V1.delete_subject. apply try_catch_ok.
    rewrite (bind_lift_ok _ (Firestore.here subjectId))
      by (apply doc_document_id; exact Hid).
    reflexivity. }
  split; [apply listing_delete; exact Hdoc|]. split.
  - intros fileId. apply delete_file_no_subject; assumption.
  - intros body name content Hname Hcontent Tname Tcontent.
    apply (post_file_no_subject env subjectId body name content); assumption.
Qed.

Lemma delete_subject_stored_witness :
  exists st' : Store,
    V1.delete_subject (lit "s1") store_three_files
    = (st', respond 200 (json (message "Subject deleted successfully")))
    /\ st' !! lit "s1" = None
    /\ listing store_three_files
       ≡ₚ JObj (subject_sample "s1" "Anatomy" files_three) :: listing st'
    /\ (forall fileId : jsstring,
          V1.delete_file (lit "s1") fileId st'
          = (st', respond 404 (json (message "Subject not found."))))
    /\ (forall body name content : JValue,
          get_prop body (lit "name") = Ok name ->
          get_prop body (lit "content") = Ok content ->
          truthy name = true -> truthy content = true ->
          V1.post_file env_sample (lit "s1") body st'
          = (st', respond 404 (json (message "Subject not found.")))).
Proof.
  apply (delete_subject_stored env_sample (lit "s1")
           (subject_sample "s1" "Anatomy" files_three) store_three_files);
    reflexivity.
Defined.

(** X3. Renaming with a truthy [name] when the path of the request
    names no stored document: the answer is 500 and not 404, and the store
    is unchanged.  ([update] fails on a missing document, and the client
    throws on a path that names no document at all.) *)
Theorem put_subject_missing
    (subjectId : jsstring) (body name : JValue) (st : Store) :
  get_prop body (lit "name") = Ok name ->
  truthy name = true ->
  (forall id : jsstring,
     Firestore.doc subjectId = Ok (Firestore.here id) -> st !! id = None) ->
  V1.put_subject subjectId body st
  = (st, respond 500 (json (message "Internal Server Error"))).
Proof.
  intros Hbody Tname Hnone. unfold V1.put_subject. apply try_catch_throw.
  rewrite (bind_lift_ok _ name) by exact Hbody.
  rewrite Tname. cbn [negb].
  unfold bind, lift, Firestore.doc_update.
  destruct (Firestore.doc subjectId) as [[id | path]|]; try reflexivity.
  - rewrite (Hnone id eq_refl). destruct (Firestore.writable _); reflexivity.
  - destruct (Firestore.writable _); reflexivity.
Qed.

Lemma put_subject_missing_witness :
  V1.put_subject (lit "s9") (JObj [(lit "name", JStr (lit "Histology"))])
    store_sample
  = (store_sample, respond 500 (json (message "Internal Server Error"))).
Proof.
  apply (put_subject_missing (lit "s9")
           (JObj [(lit "name", JStr (lit "Histology"))])
           (JStr (lit "Histology")) store_sample); try reflexivity.
  intros id [= <-]. reflexivity.
Defined.

(** X4. Renaming a subject stored under a document id, with a truthy
    [name] that the store accepts: the answer is 200; the document read
    back keeps every other field (its id, its files) and its [name] is the
    value of the request as it is: it is neither trimmed nor required to
    be a string.  The other documents are untouched. *)
Theorem put_subject_renames
    (subjectId : jsstring) (body name : JValue) (doc : Doc) (st : Store) :
  document_id subjectId = true ->
  get_prop body (lit "name") = Ok name ->
  truthy name = true ->
  Firestore.storable name = true ->
  st !! subjectId = Some doc ->
  exists (st' : Store) (doc' : Doc),
    V1.put_subject subjectId body st
    = (st', respond 200 (json (message "Subject updated successfully")))
    /\ st' !! subjectId = Some doc'
    /\ field (lit "name") doc' = Some name
    /\ (forall k : jsstring, k <> lit "name" -> field k doc' = field k doc)
    /\ (forall other : jsstring, other <> subjectId -> st' !! other = st !! other).
Proof.
  intros Hid Hbody Tname Hstorable Hdoc.
  destruct (field_written subjectId (lit "name") name doc st)
    as [(doc' & Hdoc' & Hread & Hkept) Hothers].
  eexists _, doc'.
  split; [|split; [exact Hdoc'|split; [exact Hread|split; [exact Hkept|exact Hothers]]]].
  unfold V1.put_subject. apply try_catch_ok.
  rewrite (bind_lift_ok _ name) by exact Hbody.
  rewrite Tname. cbn [negb].
  rewrite (bind_lift_ok _ (Firestore.here subjectId))
    by (apply doc_document_id; exact Hid).
  unfold bind, Firestore.doc_update, ret. cbn [Firestore.writable].
  rewrite Hstorable, Hdoc. reflexivity.
Qed.

Lemma put_subject_renames_witness :
  exists (st' : Store) (doc' : Doc),
    V1.put_subject (lit "s1") (JObj [(lit "name", JStr (lit "  "))]) store_sample
    = (st', respond 200 (json (message "Subject updated successfully")))
    /\ st' !! lit "s1" = Some doc'
    /\ field (lit "name") doc' = Some (JStr (lit "  "))
    /\ (forall k : jsstring,
          k <> lit "name" ->
          field k doc'
          = field k [(lit "id", JStr (lit "s1"));
                     (lit "name", JStr (lit "Anatomy"));
                     (lit "files", JArr [])])
    /\ (forall other : jsstring,
          other <> lit "s1" -> st' !! other = store_sample !! other).
Proof.
  apply (put_subject_renames (lit "s1") (JObj [(lit "name", JStr (lit "  "))])
           (JStr (lit "  ")) _ store_sample); reflexivity.
Defined.

(** A name the store refuses: the rename is answered 500. *)
Example put_subject_refused_name :
  V1.put_subject (lit "s1") (JObj [(lit "name", JObj [([], JNum 1)])]) store_sample
  = (store_sample, respond 500 (json (message "Internal Server Error"))).
Proof. reflexivity. Qed.

(** X5. Adding a file with a falsy (missing, empty) [name] or [content]
    is answered 400 before the subject is looked up: the store is
    unchanged, whether or not the subject exists. *)
Theorem post_file_invalid
    (env : V1.Env) (subjectId : jsstring) (body name content : JValue)
    (st : Store) :
  get_prop body (lit "name") = Ok name ->
  get_prop body (lit "content") = Ok content ->
  truthy name = false \/ truthy content = false ->
  V1.post_file env subjectId body st
  = (st, respond 400 (json (message "File name and content are required."))).
Proof.
  intros Hname Hcontent Hfalsy. unfold V1.post_file. apply try_catch_ok.
  rewrite (bind_lift_ok _ name) by exact Hname.
  rewrite (bind_lift_ok _ content) by exact Hcontent.
  assert (H : negb (truthy name) || negb (truthy content) = true).
  { destruct Hfalsy as [-> | ->]; [reflexivity | apply orb_true_r]. }
  rewrite H. reflexivity.
Qed.

Lemma post_file_invalid_witness :
  V1.post_file env_sample (lit "s9")
    (JObj [(lit "name", JStr (lit "a.txt")); (lit "content", JStr [])])
    store_sample
  = (store_sample,
     respond 400 (json (message "File name and content are required."))).
Proof.
  apply (post_file_invalid env_sample (lit "s9")
           (JObj [(lit "name", JStr (lit "a.txt")); (lit "content", JStr [])])
           (JStr (lit "a.txt")) (JStr []) store_sample);
    [reflexivity | reflexivity | right; reflexivity].
Defined.

(** ** Files: add and delete (variant 1) *)

Lemma find_has_id_app_fresh (fileId : jsstring) (fs : list JValue) (f : JValue) :
  fileId ∉ file_ids fs ->
  has_id fileId f = true ->
  List.find (has_id fileId) (fs ++ [f]) = Some f.
Proof.
  intros Hfresh Hf. induction fs as [|x fs IH]; cbn [app List.find].
  - rewrite Hf. reflexivity.
  - cbn [file_ids] in Hfresh.
    destruct (has_id fileId x) eqn:Hx.
    + exfalso. apply has_id_file_id in Hx. rewrite Hx in Hfresh.
      apply Hfresh. left.
    + apply IH. destruct (file_id x); [|exact Hfresh].
      intros Hin. apply Hfresh. right. exact Hin.
Qed.

Lemma filter_app_last (f : JValue) (fs : list JValue) :
  f ∉ fs -> List.filter (fun g => negb (jv_eqb g f)) (fs ++ [f]) = fs.
Proof.
  intros Hnotin. rewrite List.filter_app, (filter_keeps_all f fs Hnotin).
  cbn [List.filter]. rewrite jv_eqb_refl. cbn [negb]. apply app_nil_r.
Qed.

(** X6. For a subject stored under a document id: adding a file that the
    store accepts and then deleting it by the id of the answer gives back
    the store before the two requests, when the generated id is not the id
    of a file the subject already has. *)
Theorem add_then_delete_file
    (env : V1.Env) (subjectId : jsstring) (body name content : JValue)
    (st : Store) (doc : Doc) (fs : list JValue) :
  document_id subjectId = true ->
  get_prop body (lit "name") = Ok name ->
  get_prop body (lit "content") = Ok content ->
  truthy name = true ->
  truthy content = true ->
  Firestore.storable_entry
    (JObj [(lit "id", JStr (V1.new_file_id env));
           (lit "name", name); (lit "content", content)]) = true ->
  st !! subjectId = Some doc ->
  field (lit "files") doc = Some (JArr fs) ->
  Forall (fun f => is_nullish f = false) fs ->
  V1.new_file_id env ∉ file_ids fs ->
  exists st1 : Store,
    V1.post_file env subjectId body st
    = (st1, respond 201 (json (JObj [(lit "id", JStr (V1.new_file_id env));
                                     (lit "name", name);
                                     (lit "content", content)])))
    /\ V1.delete_file subjectId (V1.new_file_id env) st1
       = (st, respond 200 (json (message "File deleted successfully"))).
Proof.
  intros Hid Hname Hcontent Tname Tcontent Hstorable Hdoc Hfiles Hvalues Hfresh.
  set (newFile := JObj [(lit "id", JStr (V1.new_file_id env));
                        (lit "name", name); (lit "content", content)]).
  assert (Hnew : newFile ∉ fs) by (apply fresh_id_not_elem; exact Hfresh).
  eexists. split.
  - rewrite (post_file_appended env subjectId body name content st doc fs)
      by assumption.
    fold newFile. rewrite (existsb_not_elem newFile fs Hnew). reflexivity.
  - rewrite (delete_file_found subjectId (V1.new_file_id env) _
               (Firestore.set_field (lit "files") (JArr (fs ++ [newFile])) doc)
               (fs ++ [newFile]) newFile).
    + rewrite (filter_app_last newFile fs Hnew).
      rewrite insert_insert_eq, set_field_set_field.
      rewrite (set_field_same _ _ _ Hfiles).
      rewrite (insert_id st subjectId doc Hdoc). reflexivity.
    + exact Hid.
    + apply lookup_insert_eq.
    + apply field_set_field_eq.
    + rewrite find_by_id_find.
      * rewrite (find_has_id_app_fresh _ fs newFile Hfresh); [reflexivity|].
        apply has_id_file_id. reflexivity.
      * apply Forall_app. split; [exact Hvalues|]. repeat constructor.
    + reflexivity.
Qed.

Lemma add_then_delete_file_witness :
  exists st1 : Store,
    V1.post_file env_sample (lit "s1") body_file_sample store_three_files
    = (st1, respond 201 (json (JObj [(lit "id", JStr (V1.new_file_id env_sample));
                                     (lit "name", JStr (lit "b.txt"));
                                     (lit "content", JStr (lit "B"))])))
    /\ V1.delete_file (lit "s1") (V1.new_file_id env_sample) st1
       = (store_three_files,
          respond 200 (json (message "File deleted successfully"))).
Proof.
  apply (add_then_delete_file env_sample (lit "s1") body_file_sample
           (JStr (lit "b.txt")) (JStr (lit "B")) store_three_files
           (subject_sample "s1" "Anatomy" files_three) files_three);
    try reflexivity.
  - repeat constructor.
  - apply (bool_decide_unpack _). vm_compute. reflexivity.
Defined.

(** X7. Deleting the same file a second time is answered 404 and
    changes nothing more (for a subject stored under a document id, with a
    files sequence with unique ids). *)
Theorem delete_file_twice
    (subjectId fileId : jsstring) (st : Store) (doc : Doc) (fs : list JValue) :
  document_id subjectId = true ->
  st !! subjectId = Some doc ->
  field (lit "files") doc = Some (JArr fs) ->
  Forall (fun f => is_nullish f = false) fs ->
  NoDup (file_ids fs) ->
  fileId ∈ file_ids fs ->
  exists st1 : Store,
    V1.delete_file subjectId fileId st
    = (st1, respond 200 (json (message "File deleted successfully")))
    /\ V1.delete_file subjectId fileId st1
       = (st1, respond 404 (json (message "File not found."))).
Proof.
  intros Hid Hdoc Hfiles Hvalues Hnodup Hin.
  destruct (unique_id_split fileId fs Hnodup Hin)
    as (before & f & after & Hfs & Hf & Hrest & Hfind & Hfilter).
  eexists. split.
  - apply (delete_file_found subjectId fileId st doc fs f); try assumption.
    + rewrite (find_by_id_find fileId fs Hvalues), Hfind. reflexivity.
    + apply (has_id_truthy fileId). apply has_id_file_id. exact Hf.
  - rewrite Hfilter.
    apply (delete_file_absent subjectId fileId _
             (Firestore.set_field (lit "files") (JArr (before ++ after)) doc)
             (before ++ after)).
    + exact Hid.
    + apply lookup_insert_eq.
    + apply field_set_field_eq.
    + rewrite find_by_id_find.
      * rewrite find_none_has_id; [reflexivity|].
        eapply Forall_impl; [exact Hrest|]. intros g Hg. cbv beta in Hg.
        destruct (has_id fileId g) eqn:E; [|reflexivity].
        apply has_id_file_id in E. contradiction.
      * subst fs. apply Forall_app in Hvalues as [Hb Ha].
        apply Forall_cons in Ha as [_ Ha].
        apply Forall_app. split; assumption.
Qed.

Lemma delete_file_twice_witness :
  exists st1 : Store,
    V1.delete_file (lit "s1") (lit "f2") store_three_files
    = (st1, respond 200 (json (message "File deleted successfully")))
    /\ V1.delete_file (lit "s1") (lit "f2") st1
       = (st1, respond 404 (json (message "File not found."))).
Proof.
  apply (delete_file_twice (lit "s1") (lit "f2") store_three_files
           (subject_sample "s1" "Anatomy" files_three) files_three).
  - reflexivity.
  - reflexivity.
  - reflexivity.
  - repeat constructor.
  - apply (bool_decide_unpack _). vm_compute. reflexivity.
  - apply (bool_decide_unpack _). vm_compute. reflexivity.
Defined.

(** X8. Adding a file that the subject (stored under a document id)
    already holds as the same value (same id, name and content) is
    answered 201 with the file although the store stays as it was. *)
Theorem post_file_already_there
    (env : V1.Env) (subjectId : jsstring) (body name content : JValue)
    (st : Store) (doc : Doc) (fs : list JValue) :
  document_id subjectId = true ->
  get_prop body (lit "name") = Ok name ->
  get_prop body (lit "content") = Ok content ->
  truthy name = true ->
  truthy content = true ->
  Firestore.storable_entry
    (JObj [(lit "id", JStr (V1.new_file_id env));
           (lit "name", name); (lit "content", content)]) = true ->
  st !! subjectId = Some doc ->
  field (lit "files") doc = Some (JArr fs) ->
  JObj [(lit "id", JStr (V1.new_file_id env));
        (lit "name", name); (lit "content", content)] ∈ fs ->
  V1.post_file env subjectId body st
  = (st, respond 201 (json (JObj [(lit "id", JStr (V1.new_file_id env));
                                  (lit "name", name);
                                  (lit "content", content)]))).
Proof.
  intros Hid Hname Hcontent Tname Tcontent Hstorable Hdoc Hfiles Hin.
  rewrite (post_file_appended env subjectId body name content st doc fs)
    by assumption.
  rewrite (existsb_elem _ fs Hin).
  rewrite (set_field_same _ _ _ Hfiles).
  rewrite (insert_id st subjectId doc Hdoc). reflexivity.
Qed.

Lemma post_file_already_there_witness :
  V1.post_file env_sample (lit "s1") body_file_sample
    {[ lit "s1" := subject_sample "s1" "Anatomy" [file_new_sample] ]}
  = ({[ lit "s1" := subject_sample "s1" "Anatomy" [file_new_sample] ]},
     respond 201 (json (JObj [(lit "id", JStr (V1.new_file_id env_sample));
                              (lit "name", JStr (lit "b.txt"));
                              (lit "content", JStr (lit "B"))]))).
Proof.
  apply (post_file_already_there env_sample (lit "s1") body_file_sample
           (JStr (lit "b.txt")) (JStr (lit "B")) _
           (subject_sample "s1" "Anatomy" [file_new_sample]) [file_new_sample]);
    try reflexivity.
  left.
Defined.

(** ** Variant 2 *)

Lemma v2_get_subjects_empty :
  V2.get_subjects ∅
  = ({[ lit "1" := sample_doc ]}, respond 200 (json (JArr [JObj sample_doc]))).
Proof.
  unfold V2.get_subjects, try_catch, bind, Firestore.collection_get.
  rewrite map_to_list_empty. cbn [List.map]; cbv iota beta.
  rewrite save_all_initialSubjects. reflexivity.
Qed.

Lemma v2_get_subjects_nonempty (st : Store) :
  st <> ∅ -> V2.get_subjects st = (st, respond 200 (json (JArr (listing st)))).
Proof.
  intros Hne. unfold V2.get_subjects, try_catch, bind, Firestore.collection_get,
    listing.
  destruct (map_to_list st) as [|d ds] eqn:Hdocs.
  - apply map_to_list_empty_iff in Hdocs. contradiction.
  - reflexivity.
Qed.

(** X9. In variant 2 the listing of a store that holds a document
    writes nothing: it answers 200 with the documents, and the store is
    unchanged. *)
Theorem v2_listing_reads_only (st : Store) (k : jsstring) (doc : Doc) :
  st !! k = Some doc ->
  V2.get_subjects st = (st, respond 200 (json (JArr (listing st))))
  /\ JObj doc ∈ listing st.
Proof.
  intros Hdoc. split.
  - apply v2_get_subjects_nonempty. intros ->.
    rewrite lookup_empty in Hdoc. discriminate.
  - unfold listing. apply list_elem_of_In, in_map, in_map_iff.
    exists (k, doc). split; [reflexivity|].
    apply list_elem_of_In, elem_of_map_to_list. exact Hdoc.
Qed.

Lemma v2_listing_reads_only_witness :
  V2.get_subjects store_sample
  = (store_sample, respond 200 (json (JArr (listing store_sample))))
  /\ JObj [(lit "id", JStr (lit "s1"));
           (lit "name", JStr (lit "Anatomy"));
           (lit "files", JArr [])] ∈ listing store_sample.
Proof.
  apply (v2_listing_reads_only store_sample (lit "s1")). reflexivity.
Defined.

(** X10. In variant 2 a second listing changes nothing and answers as
    the first: listing the store a listing leaves is listing the store. *)
Theorem v2_listing_twice (st : Store) :
  V2.get_subjects (fst (V2.get_subjects st))
  = (fst (V2.get_subjects st), snd (V2.get_subjects st)).
Proof.
  destruct (decide (st = ∅)) as [-> | Hne].
  - rewrite v2_get_subjects_empty. cbn [fst snd].
    rewrite v2_get_subjects_nonempty by apply insert_non_empty.
    reflexivity.
  - rewrite (v2_get_subjects_nonempty st Hne). cbn [fst snd].
    apply v2_get_subjects_nonempty. exact Hne.
Qed.

(** X11. In variant 2, when the store holds no document other than the
    one a delete request names by a document id (so after the request the
    collection is empty), the next listing brings the sample subject back:
    it stores it as document "1" and answers with the sample list. *)
Theorem v2_delete_last_then_list (subjectId : jsstring) (st : Store) :
  (forall k : jsstring,
     st !! k = None \/ (k = subjectId /\ document_id subjectId = true)) ->
  V2.get_subjects (fst (V2.delete_subject subjectId st))
  = ({[ lit "1" := sample_doc ]}, respond 200 (json (JArr V2.initialSubjects))).
Proof.
  intros Honly.
  assert (Hempty : fst (V2.delete_subject subjectId st) = ∅).
  { unfold V2.delete_subject, try_catch, bind, lift, ret, Firestore.doc_delete.
    destruct (document_id subjectId) eqn:Hid.
    - rewrite (doc_document_id subjectId Hid). cbn [fst].
      apply map_eq. intros k. rewrite lookup_empty.
      destruct (decide (k = subjectId)) as [-> | Hk]; [apply lookup_delete_eq|].
      rewrite lookup_delete_ne by congruence.
      destruct (Honly k) as [Hnone | [-> _]]; [exact Hnone | contradiction].
    - assert (Hst : st = ∅).
      { apply map_eq. intros k. rewrite lookup_empty.
        destruct (Honly k) as [Hnone | [_ H]]; [exact Hnone | discriminate]. }
      subst st.
      destruct (Firestore.doc subjectId) as [[id | path]|]; cbn [fst];
        [apply delete_empty | reflexivity | reflexivity]. }
  rewrite Hempty. apply v2_get_subjects_empty.
Qed.

Lemma v2_delete_last_then_list_witness :
  V2.get_subjects (fst (V2.delete_subject (lit "s1") store_sample))
  = ({[ lit "1" := sample_doc ]}, respond 200 (json (JArr V2.initialSubjects))).
Proof.
  apply (v2_delete_last_then_list (lit "s1") store_sample).
  intros k. destruct (decide (k = lit "s1")) as [-> | Hk].
  - right. split; reflexivity.
  - left. apply lookup_singleton_ne. congruence.
Defined.

(** X12. Creating a subject in variant 2.  A body that is falsy, or
    whose [name] or [id] is falsy (missing, empty, 0), is answered 400 and
    nothing is written.  An object that the store accepts, with a truthy
    [name] and an [id] that is a string or an integer JavaScript holds
    exactly, whose text is a document id, is answered 201; the document
    read back under the text of the id is the body, whole and as sent,
    whatever was stored there before, and the other documents are
    untouched. *)
Theorem v2_post_subjects_spec (body : JValue) (st : Store) :
  (truthy body = false
   \/ (exists v, get_prop body (lit "name") = Ok v /\ truthy v = false)
   \/ (exists v, get_prop body (lit "id") = Ok v /\ truthy v = false) ->
   V2.post_subjects body st
   = (st, respond 400 (send (lit "Invalid subject data."))))
  /\ (forall (o : Doc) (name id : JValue) (key : jsstring),
        body = JObj o ->
        field (lit "name") o = Some name -> truthy name = true ->
        field (lit "id") o = Some id -> truthy id = true ->
        (id = JStr key
         \/ exists n : Z,
              id = JNum n /\ (Z.abs n < 2 ^ 53)%Z /\ key = decimalZ n) ->
        document_id key = true ->
        well_formed_text key = true ->
        Firestore.storable body = true ->
        exists st' : Store,
          V2.post_subjects body st = (st', respond 201 (json body))
          /\ st' !! key = Some o
          /\ (forall other : jsstring, other <> key -> st' !! other = st !! other)).
Proof.
  split.
  - intros Hbad. unfold V2.post_subjects. apply try_catch_ok.
    rewrite (bind_lift_ok _ true); [reflexivity|].
    unfold V2.subject_invalid.
    destruct (truthy body) eqn:Tbody; [|reflexivity]. cbn [negb].
    destruct Hbad as [Hb | [(v & Hv & Tv) | (v & Hv & Tv)]]; [discriminate| |].
    + rewrite Hv, Tv. reflexivity.
    + destruct (get_prop body (lit "name")) as [name|] eqn:Hname.
      * destruct (truthy name); [|reflexivity]. cbn [negb].
        rewrite Hv, Tv. reflexivity.
      * destruct body; discriminate.
  - intros o name id key -> Hname Tname Hid Tid Hkey Hdocid _ Hstorable.
    assert (Htext : js_String id = Ok key).
    { destruct Hkey as [-> | (n & -> & _ & ->)]; reflexivity. }
    exists (<[key := o]> st). split; [|split].
    + unfold V2.post_subjects. apply try_catch_ok.
      rewrite (bind_lift_ok _ false).
      * rewrite (bind_lift_ok _ id) by (unfold get_prop; rewrite Hid; reflexivity).
        rewrite (bind_lift_ok _ key) by exact Htext.
        rewrite (bind_lift_ok _ (Firestore.here key))
          by (apply doc_document_id; exact Hdocid).
        unfold bind, Firestore.doc_set, ret. rewrite Hstorable. reflexivity.
      * unfold V2.subject_invalid, get_prop. cbn [truthy negb].
        rewrite Hname. cbn [default from_option Datatypes.id].
        rewrite Tname. cbn [negb].
        rewrite Hid. cbn [default from_option Datatypes.id].
        rewrite Tid. reflexivity.
    + apply lookup_insert_eq.
    + intros other Hother. apply lookup_insert_ne. congruence.
Qed.

Lemma v2_post_subjects_spec_witness :
  V2.post_subjects (JObj [(lit "id", JNum 0); (lit "name", JStr (lit "Histology"))])
    store_sample
  = (store_sample, respond 400 (send (lit "Invalid subject data.")))
  /\ exists st' : Store,
       V2.post_subjects
         (JObj [(lit "id", JStr (lit "s1")); (lit "name", JStr (lit "Histology"))])
         store_sample
       = (st', respond 201
                 (json (JObj [(lit "id", JStr (lit "s1"));
                              (lit "name", JStr (lit "Histology"))])))
       /\ st' !! lit "s1" = Some [(lit "id", JStr (lit "s1"));
                                  (lit "name", JStr (lit "Histology"))]
       /\ (forall other : jsstring,
             other <> lit "s1" -> st' !! other = store_sample !! other).
Proof.
  split.
  - apply (proj1 (v2_post_subjects_spec _ store_sample)).
    right. right. exists (JNum 0). split; reflexivity.
  - apply (proj2 (v2_post_subjects_spec _ store_sample)
             _ (JStr (lit "Histology")) (JStr (lit "s1")) (lit "s1"));
      try reflexivity.
    left. reflexivity.
Defined.

(** X13. Replacing a subject in variant 2, under a document id, with an
    object that the store accepts: it is stored, whole and as sent, under
    the id of the path (the old document is replaced, a missing one is
    created, and the [id] inside the body plays no part); the listing that
    follows writes nothing and shows it; and the same request once more
    changes nothing.  A falsy body is answered 400, and an array, which
    [set] refuses, 500; both leave the store unchanged. *)
Theorem v2_put_subject_spec (subjectId : jsstring) (body : JValue) (st : Store) :
  (forall o : Doc,
     body = JObj o ->
     document_id subjectId = true ->
     Firestore.storable body = true ->
     exists st1 : Store,
       V2.put_subject subjectId body st = (st1, respond 200 (json body))
       /\ st1 !! subjectId = Some o
       /\ (forall other : jsstring, other <> subjectId -> st1 !! other = st !! other)
       /\ V2.get_subjects st1 = (st1, respond 200 (json (JArr (listing st1))))
       /\ body ∈ listing st1
       /\ V2.put_subject subjectId body st1 = (st1, respond 200 (json body)))
  /\ (truthy body = false ->
      V2.put_subject subjectId body st
      = (st, respond 400 (send (lit "Invalid update data."))))
  /\ (forall l : list JValue,
        body = JArr l ->
        V2.put_subject subjectId body st
        = (st, respond 500 (send (lit "Error updating data.")))).
Proof.
  split; [|split].
  - intros o -> Hid Hstorable. exists (<[subjectId := o]> st).
    assert (Hdoc : <[subjectId := o]> st !! subjectId = Some o)
      by apply lookup_insert_eq.
    assert (Hput : forall st0 : Store,
              V2.put_subject subjectId (JObj o) st0
              = (<[subjectId := o]> st0, respond 200 (json (JObj o)))).
    { intros st0. unfold V2.put_subject. cbn [truthy negb]. apply try_catch_ok.
      rewrite (bind_lift_ok _ (Firestore.here subjectId))
        by (apply doc_document_id; exact Hid).
      unfold bind, Firestore.doc_set, ret. rewrite Hstorable. reflexivity. }
    split; [apply Hput|]. split; [exact Hdoc|]. split; [|split; [|split]].
    + intros other Hother. apply lookup_insert_ne. congruence.
    + apply v2_get_subjects_nonempty. apply insert_non_empty.
    + unfold listing. apply list_elem_of_In, in_map, in_map_iff.
      exists (subjectId, o). split; [reflexivity|].
      apply list_elem_of_In, elem_of_map_to_list. exact Hdoc.
    + rewrite Hput, insert_insert_eq. reflexivity.
  - intros Tbody. unfold V2.put_subject. rewrite Tbody. reflexivity.
  - intros l ->. unfold V2.put_subject. cbn [truthy negb].
    apply try_catch_throw. unfold bind, lift, Firestore.doc_set.
    destruct (Firestore.doc subjectId); reflexivity.
Qed.

Lemma v2_put_subject_spec_witness :
  (exists st1 : Store,
     V2.put_subject (lit "s7")
       (JObj [(lit "id", JStr (lit "other")); (lit "name", JStr (lit "Histology"))])
       store_sample
     = (st1, respond 200
               (json (JObj [(lit "id", JStr (lit "other"));
                            (lit "name", JStr (lit "Histology"))])))
     /\ st1 !! lit "s7" = Some [(lit "id", JStr (lit "other"));
                                (lit "name", JStr (lit "Histology"))]
     /\ (forall other : jsstring,
           other <> lit "s7" -> st1 !! other = store_sample !! other)
     /\ V2.get_subjects st1 = (st1, respond 200 (json (JArr (listing st1))))
     /\ JObj [(lit "id", JStr (lit "other"));
              (lit "name", JStr (lit "Histology"))] ∈ listing st1
     /\ V2.put_subject (lit "s7")
          (JObj [(lit "id", JStr (lit "other")); (lit "name", JStr (lit "Histology"))])
          st1
        = (st1, respond 200
                  (json (JObj [(lit "id", JStr (lit "other"));
                               (lit "name", JStr (lit "Histology"))]))))
  /\ V2.put_subject (lit "s1") (JArr []) store_sample
     = (store_sample, respond 500 (send (lit "Error updating data."))).
Proof.
  split.
  - apply (proj1 (v2_put_subject_spec (lit "s7") _ store_sample));
      reflexivity.
  - apply (proj2 (proj2 (v2_put_subject_spec (lit "s1") (JArr []) store_sample))
             []).
    reflexivity.
Defined.
(** ** Statuses and failures *)

(** X14. Which statuses a route can answer with.  In variant 1: the
    listing always 200; deleting a subject 200 or 500; creating a subject
    201, 400 or 500; renaming 200, 400 or 500; adding a file 201, 400, 404
    or 500; deleting a file 200, 404 or 500.  In variant 2: the listing
    200; creating 201, 400 or 500; replacing 200, 400 or 500; deleting 204
    or 500, and no route answers 404. *)
Theorem statuses_by_route
    (env : V1.Env) (req1 : V1.Request) (req2 : V2.Request) (st : Store) :
  status (snd (V1.handle env req1 st)) ∈ v1_statuses req1
  /\ status (snd (V2.handle req2 st)) ∈ v2_statuses req2.
Proof.
  split.
  - destruct req1; cbn [V1.handle v1_statuses]; unfold_handlers; split_cases;
      cbn [snd status]; rewrite ?elem_of_cons; auto 6.
  - destruct req2; cbn [V2.handle v2_statuses]; unfold_handlers.
    + destruct (List.map snd (map_to_list st)); cbv beta iota;
        [rewrite save_all_initialSubjects|]; cbn [snd status]; left.
    + split_cases; cbn [snd status]; rewrite ?elem_of_cons; auto 6.
    + split_cases; cbn [snd status]; rewrite ?elem_of_cons; auto 6.
    + split_cases; cbn [snd status]; rewrite ?elem_of_cons; auto 6.
Qed.

(** X15. A request that is answered with a failure (a status of 400 or
    more) leaves the store exactly as it was.  The failure body is the
    JSON object [{ message }] in variant 1 and a plain text in variant
    2. *)
Theorem failure_changes_nothing (c : Call) (st : Store) :
  is_failure (snd (gateway c st)) = true ->
  fst (gateway c st) = st
  /\ match c with
     | to_v1 _ _ =>
         exists text : string,
           payload (snd (gateway c st)) = json (message text)
     | to_v2 _ =>
         exists text : jsstring, payload (snd (gateway c st)) = send text
     end.
Proof.
  unfold is_failure.
  destruct c as [env req | req]; destruct req; cbn [gateway V1.handle V2.handle];
    unfold_handlers.
  7: { destruct (List.map snd (map_to_list st)); cbv beta iota;
       [rewrite save_all_initialSubjects|]; cbn [snd status]; discriminate. }
  all: split_cases; cbn [fst snd status payload];
    try discriminate; intros _; (split; [reflexivity | eexists; reflexivity]).
Qed.

Lemma failure_changes_nothing_witness :
  fst (gateway (to_v1 env_sample
                  (V1.PutSubject (lit "s9") (JObj [(lit "name", JStr (lit "x"))])))
         store_sample)
  = store_sample
  /\ exists text : string,
       payload (snd (gateway (to_v1 env_sample
                                (V1.PutSubject (lit "s9")
                                   (JObj [(lit "name", JStr (lit "x"))])))
                       store_sample))
       = json (message text).
Proof.
  apply (failure_changes_nothing
           (to_v1 env_sample
              (V1.PutSubject (lit "s9") (JObj [(lit "name", JStr (lit "x"))])))
           store_sample).
  reflexivity.
Defined.

(** ** What every store of variant 1 satisfies *)

Lemma run_v1_invariant (P : Store -> Prop) :
  (forall env req st, P st -> P (fst (V1.handle env req st))) ->
  forall calls st, P st -> P (run_v1 calls st).
Proof.
  intros Hstep calls. induction calls as [|[env req] calls IH]; intros st Hst.
  - exact Hst.
  - cbn [run_v1]. apply IH, Hstep, Hst.
Qed.

Lemma files_of_set_files (fs : list JValue) (doc : Doc) :
  files_of (Firestore.set_field (lit "files") (JArr fs) doc) = fs.
Proof. unfold files_of. rewrite field_set_field_eq. reflexivity. Qed.

Lemma files_of_set_name (v : JValue) (doc : Doc) :
  files_of (Firestore.set_field (lit "name") v doc) = files_of doc.
Proof.
  unfold files_of. rewrite field_set_field_ne; [reflexivity | discriminate].
Qed.

Lemma id_set_field (k : jsstring) (v : JValue) (doc : Doc) :
  k <> lit "id" ->
  field (lit "id") (Firestore.set_field k v doc) = field (lit "id") doc.
Proof. intros Hk. apply field_set_field_ne. congruence. Qed.

Lemma transform_files_NoDup (doc : Doc) (fv : Firestore.FieldValue) :
  NoDup (files_of doc) ->
  (exists e, fv = Firestore.arrayUnion e \/ fv = Firestore.arrayRemove e) ->
  exists fs : list JValue,
    Firestore.transform (field (lit "files") doc) fv = JArr fs /\ NoDup fs.
Proof.
  unfold files_of. intros Hnodup (e & [-> | ->]); cbn [Firestore.transform].
  - destruct (field (lit "files") doc) as [[]|];
      try (eexists; split; [reflexivity | apply NoDup_singleton]).
    eexists; split; [reflexivity|].
    destruct (existsb (fun x => jv_eqb x e) elts) eqn:E; [exact Hnodup|].
    apply NoDup_app. split; [exact Hnodup|]. split; [|apply NoDup_singleton].
    intros x Hx Hxe. apply list_elem_of_singleton in Hxe. subst x.
    rewrite (existsb_elem e elts Hx) in E. discriminate.
  - destruct (field (lit "files") doc) as [[]|];
      try (eexists; split; [reflexivity | apply NoDup_nil_2]).
    eexists; split; [reflexivity|].
    apply NoDup_ListNoDup, List.NoDup_filter, NoDup_ListNoDup. exact Hnodup.
Qed.

Lemma v1_handle_keeps_ids (env : V1.Env) (req : V1.Request) (st : Store) :
  ids_match_keys st -> ids_match_keys (fst (V1.handle env req st)).
Proof.
  intros Hst. destruct req; cbn [V1.handle]; unfold_handlers; split_cases;
    cbn [fst]; try exact Hst.
  - apply map_Forall_insert_2; [reflexivity | exact Hst].
  - apply map_Forall_insert_2; [|exact Hst].
    rewrite id_set_field by discriminate.
    match goal with H : st !! _ = Some _ |- _ => exact (Hst _ _ H) end.
  - apply map_Forall_delete. exact Hst.
  - apply map_Forall_insert_2; [|exact Hst].
    rewrite id_set_field by discriminate.
    match goal with H : st !! _ = Some _ |- _ => exact (Hst _ _ H) end.
  - apply map_Forall_insert_2; [|exact Hst].
    rewrite id_set_field by discriminate.
    match goal with H : st !! _ = Some _ |- _ => exact (Hst _ _ H) end.
Qed.

Lemma v1_handle_keeps_distinct (env : V1.Env) (req : V1.Request) (st : Store) :
  no_repeated_files st -> no_repeated_files (fst (V1.handle env req st)).
Proof.
  intros Hst. destruct req; cbn [V1.handle]; unfold_handlers; split_cases;
    cbn [fst]; try exact Hst.
  - apply map_Forall_insert_2; [apply NoDup_nil_2 | exact Hst].
  - apply map_Forall_insert_2; [|exact Hst].
    cbv beta. rewrite files_of_set_name.
    match goal with H : st !! _ = Some _ |- _ => exact (Hst _ _ H) end.
  - apply map_Forall_delete. exact Hst.
  - apply map_Forall_insert_2; [|exact Hst]. cbv beta.
    match goal with
    | H : st !! _ = Some ?d |- context [Firestore.transform _ ?fv] =>
        destruct (transform_files_NoDup d fv (Hst _ _ H)) as (fs & -> & Hfs);
        [eexists; left; reflexivity|]
    end.
    rewrite files_of_set_files. exact Hfs.
  - apply map_Forall_insert_2; [|exact Hst]. cbv beta.
    match goal with
    | H : st !! _ = Some ?d |- context [Firestore.transform _ ?fv] =>
        destruct (transform_files_NoDup d fv (Hst _ _ H)) as (fs & -> & Hfs);
        [eexists; right; reflexivity|]
    end.
    rewrite files_of_set_files. exact Hfs.
Qed.

(** X16. Variant 1 keeps the id of a subject in step with the id of its
    document: if every document carries its own id in its [id] field, so
    does every document after any sequence of requests.  (The empty store
    is such a store.) *)
Theorem v1_keeps_ids_match_keys
    (calls : list (V1.Env * V1.Request)) (st : Store) :
  ids_match_keys st -> ids_match_keys (run_v1 calls st).
Proof. apply (run_v1_invariant ids_match_keys), v1_handle_keeps_ids. Qed.

Lemma v1_keeps_ids_match_keys_witness :
  ids_match_keys ∅ /\ ids_match_keys (run_v1 calls_sample ∅).
Proof.
  split; [apply map_Forall_empty|].
  apply (v1_keeps_ids_match_keys calls_sample ∅), map_Forall_empty.
Defined.

(** X17. Variant 1 keeps the store a store of subjects: if every
    document has a [files] array whose entries are objects with a string
    id, the same holds after any sequence of requests.  (The empty store
    is such a store.) *)
Theorem v1_keeps_subject_documents
    (calls : list (V1.Env * V1.Request)) (st : Store) :
  subjects_store st -> subjects_store (run_v1 calls st).
Proof. apply (run_v1_invariant subjects_store), v1_handle_keeps_subjects. Qed.

Lemma v1_keeps_subject_documents_witness :
  subjects_store ∅ /\ subjects_store (run_v1 calls_sample ∅).
Proof.
  split; [apply map_Forall_empty|].
  apply (v1_keeps_subject_documents calls_sample ∅), map_Forall_empty.
Defined.

(** X18. Variant 1 never stores the same file value twice in a subject:
    if no files sequence holds a value twice, none does after any sequence
    of requests.  (The empty store is such a store.) *)
Theorem v1_keeps_files_distinct
    (calls : list (V1.Env * V1.Request)) (st : Store) :
  no_repeated_files st -> no_repeated_files (run_v1 calls st).
Proof. apply (run_v1_invariant no_repeated_files), v1_handle_keeps_distinct. Qed.

Lemma v1_keeps_files_distinct_witness :
  no_repeated_files ∅ /\ no_repeated_files (run_v1 calls_sample ∅).
Proof.
  split; [apply map_Forall_empty|].
  apply (v1_keeps_files_distinct calls_sample ∅), map_Forall_empty.
Defined.

(** The session [calls_sample] ends with one subject, renamed, that
    holds the second file. *)
Example run_v1_calls_sample :
  run_v1 calls_sample ∅
  = {[ V1.auto_id env_sample :=
         [(lit "id", JStr (V1.auto_id env_sample));
          (lit "name", JStr (lit "Histology"));
          (lit "files",
            JArr [JObj [(lit "id", JStr (V1.new_file_id env_later));
                        (lit "name", JStr (lit "b.txt"));
                        (lit "content", JStr (lit "B"))]])] ]}.
Proof. vm_compute. reflexivity. Qed.

(** ** The stored name and the file id *)

Lemma trimStart_head (s : jsstring) (c : N) :
  head (trimStart s) = Some c -> is_js_space c = false.
Proof.
  induction s as [|x s IH]; cbn [trimStart]; [discriminate|].
  destruct (is_js_space x) eqn:E; [exact IH|].
  cbn [head]. intros [= <-]. exact E.
Qed.

Lemma trimStart_suffix (s : jsstring) : exists p, s = p ++ trimStart s.
Proof.
  induction s as [|x s [p IH]]; cbn [trimStart]; [exists []; reflexivity|].
  destruct (is_js_space x).
  - exists (x :: p). cbn [app]. rewrite <- IH. reflexivity.
  - exists []. reflexivity.
Qed.

Lemma trimEnd_prefix (s : jsstring) : exists q, s = trimEnd s ++ q.
Proof.
  unfold trimEnd. destruct (trimStart_suffix (rev s)) as [p Hp].
  exists (rev p). rewrite <- rev_app_distr, <- Hp, rev_involutive. reflexivity.
Qed.

Lemma last_rev_head (s : jsstring) : last (rev s) = head s.
Proof.
  destruct s as [|x s]; [reflexivity|].
  cbn [rev head]. apply last_snoc.
Qed.

Lemma trimEnd_last (s : jsstring) (c : N) :
  last (trimEnd s) = Some c -> is_js_space c = false.
Proof.
  unfold trimEnd. rewrite last_rev_head. apply trimStart_head.
Qed.

Lemma trim_ends (s : jsstring) (c : N) :
  head (trim s) = Some c \/ last (trim s) = Some c -> is_js_space c = false.
Proof.
  unfold trim. intros [Hhead | Hlast]; [|exact (trimEnd_last _ c Hlast)].
  apply (trimStart_head s).
  destruct (trimEnd_prefix (trimStart s)) as [q Hq]. rewrite Hq.
  destruct (trimEnd (trimStart s)); [discriminate | exact Hhead].
Qed.

Lemma name_invalid_false_inv (name : JValue) :
  V1.name_invalid name = Ok false ->
  exists s, name = JStr s /\ trim s <> [].
Proof.
  unfold V1.name_invalid.
  destruct name as [| |b|n|s|l|o]; cbn [truthy typeof_string negb];
    try discriminate.
  - destruct b; discriminate.
  - destruct (n =? 0)%Z; discriminate.
  - destruct (negb (str_eqb s [])); [|discriminate].
    cbn [V1.js_trim]. intros [= H]. exists s. split; [reflexivity|].
    apply str_eqb_neq. exact H.
Qed.

(** X19. Whenever creating a subject is answered 201, the name that is
    stored and returned is a non-empty string that neither starts nor ends
    with a white-space character, and the document is stored under the
    generated id with an empty files sequence. *)
Theorem created_name_is_trimmed (env : V1.Env) (body : JValue) (st : Store) :
  status (snd (V1.post_subjects env body st)) = 201%Z ->
  exists stored : jsstring,
    V1.post_subjects env body st
    = (<[V1.auto_id env := [(lit "id", JStr (V1.auto_id env));
                            (lit "name", JStr stored);
                            (lit "files", JArr [])]]> st,
       respond 201 (json (JObj [(lit "id", JStr (V1.auto_id env));
                                (lit "name", JStr stored);
                                (lit "files", JArr [])])))
    /\ stored <> []
    /\ (forall c, head stored = Some c \/ last stored = Some c ->
                  is_js_space c = false).
Proof.
  intros Hstatus.
  destruct (get_prop body (lit "name")) as [name|] eqn:Hname.
  - destruct (V1.name_invalid name) as [[]|] eqn:Hinv.
    + exfalso. revert Hstatus. unfold V1.post_subjects, try_catch.
      rewrite (bind_lift_ok _ name) by exact Hname.
      rewrite (bind_lift_ok _ true) by exact Hinv. discriminate.
    + destruct (name_invalid_false_inv name Hinv) as (s & -> & Hs).
      exists (trim s). split; [|split].
      * apply post_subjects_created; assumption.
      * exact Hs.
      * intros c. apply trim_ends.
    + exfalso. revert Hstatus. unfold V1.post_subjects, try_catch.
      rewrite (bind_lift_ok _ name) by exact Hname.
      unfold bind, lift. rewrite Hinv. discriminate.
  - exfalso. revert Hstatus. unfold V1.post_subjects, try_catch, bind, lift.
    rewrite Hname. discriminate.
Qed.

Lemma created_name_is_trimmed_witness :
  exists stored : jsstring,
    V1.post_subjects env_sample
      (JObj [(lit "name", JStr ([160; 9] ++ lit "Oral  Anatomy" ++ [8233; 32]))])
      store_sample
    = (<[V1.auto_id env_sample := [(lit "id", JStr (V1.auto_id env_sample));
                                   (lit "name", JStr stored);
                                   (lit "files", JArr [])]]> store_sample,
       respond 201 (json (JObj [(lit "id", JStr (V1.auto_id env_sample));
                                (lit "name", JStr stored);
                                (lit "files", JArr [])])))
    /\ stored <> []
    /\ (forall c, head stored = Some c \/ last stored = Some c ->
                  is_js_space c = false).
Proof.
  apply (created_name_is_trimmed env_sample
           (JObj [(lit "name", JStr ([160; 9] ++ lit "Oral  Anatomy" ++ [8233; 32]))])
           store_sample).
  reflexivity.
Defined.

Lemma firstn_decimal_id (env : V1.Env) :
  firstn (length (decimal (V1.now_millis env))) (V1.new_file_id env)
  = decimal (V1.now_millis env).
Proof.
  unfold V1.new_file_id.
  rewrite firstn_app, Nat.sub_diag, firstn_all. cbn [firstn]. apply app_nil_r.
Qed.

(** X20. For a clock reading of thirteen digits (any time from 2001 to
    2286) the id of a new file has 13 to 22 characters, and its first 13
    characters are the clock reading: read back as a decimal number they
    give the time the file was added. *)
Theorem file_id_carries_clock (env : V1.Env) :
  10 ^ 12 <= V1.now_millis env < 10 ^ 13 ->
  (13 <= length (V1.new_file_id env) <= 22)%nat
  /\ undigits (rev (firstn 13 (V1.new_file_id env))) = V1.now_millis env.
Proof.
  intros Hclock. pose proof (decimal_length_13 _ Hclock) as Hlen. split.
  - unfold V1.new_file_id, substr. rewrite length_app, Hlen.
    pose proof (firstn_le_length 9 (skipn 2 (V1.random_text env))). lia.
  - rewrite <- Hlen, firstn_decimal_id. unfold decimal.
    rewrite rev_involutive. apply undigits_digits_rev, decimal_fuel.
Qed.

Lemma file_id_carries_clock_witness :
  (13 <= length (V1.new_file_id env_sample) <= 22)%nat
  /\ undigits (rev (firstn 13 (V1.new_file_id env_sample)))
     = V1.now_millis env_sample.
Proof.
  apply (file_id_carries_clock env_sample). vm_compute.
  split; [discriminate | reflexivity].
Defined.

(** ** The listing of variant 1 *)

(** X21. The listing of variant 1 writes nothing and answers 200 with
    the stored documents, each once: a document is shown exactly when it
    is stored under some id, and the answer has as many entries as the
    store has documents. *)
Theorem v1_listing_shows_store (st : Store) :
  exists shown : list JValue,
    V1.get_subjects st = (st, respond 200 (json (JArr shown)))
    /\ length shown = size st
    /\ (forall doc : Doc,
          JObj doc ∈ shown <-> exists k : jsstring, st !! k = Some doc).
Proof.
  exists (listing st). split; [reflexivity|]. split.
  - unfold listing. rewrite !length_map. apply length_map_to_list.
  - intros doc. unfold listing. rewrite list_elem_of_In, in_map_iff. split.
    + intros (d & [= ->] & Hd). apply in_map_iff in Hd as ([k d'] & Hk & Hin).
      cbn [snd] in Hk. subst d'. exists k.
      apply elem_of_map_to_list, list_elem_of_In. exact Hin.
    + intros (k & Hk). exists doc. split; [reflexivity|].
      apply in_map_iff. exists (k, doc). split; [reflexivity|].
      apply list_elem_of_In, elem_of_map_to_list. exact Hk.
Qed.

